(** * OverDrive Thunder client (overdrive/client.py): model and properties

    A shallow embedding of [overdrive/client.py]: the search-parameter
    builder [LibraryMediaSearchParams.to_dict], the request engine
    [OverDriveClient.send_request] with its retry loop and response
    decoding, the endpoint helpers built on it, and the data extractors
    [extract_isbn] and [sort_availabilities].

    Python values are modelled as follows.
    - [str] is a list of Unicode code points ([N]); literals of the source
      are written [lit "..."].
    - [bytes] is [list byte].
    - a [dict] is an association list in insertion order, updated the way
      Python does it (an existing key keeps its position).
    - an exception is a value of [exn]; fallible code returns [Res].
    - the calls into the Python standard library whose code is not part of
      the client (urljoin, urlencode, json, gzip, str.upper) are the fields
      of the class [PyLib].
    - the transport is given by what each call of [opener.open] does; a
      call of [send_request] leaves the trace of these outcomes and the
      warnings it logged (debug logging is left out, except where
      evaluating its argument can raise).

    The definitions come first, the lemmas and the specified properties
    (C1 to C10) after them. *)

From Stdlib Require Import ZArith NArith QArith List String Ascii Bool Lia.
From Stdlib Require Import Strings.Byte DecimalString.
Import ListNotations.

Set Warnings "-register-all".
Local Open Scope Z_scope.

(* ================================================================== *)
(** ** Python strings *)

Module PyStr.

Definition char := N.
Definition str := list char.

(** A literal of the source, as code points. *)
Definition lit (s : string) : str :=
  List.map N_of_ascii (list_ascii_of_string s).

Fixpoint eqb (s t : str) : bool :=
  match s, t with
  | [], [] => true
  | c :: s', d :: t' => N.eqb c d && eqb s' t'
  | _, _ => false
  end.

(** [str.isspace] on one code point (CPython's [_PyUnicode_IsWhitespace]). *)
Definition isspace (c : char) : bool :=
  ((9 <=? c) && (c <=? 13) || (28 <=? c) && (c <=? 32)
   || (c =? 133) || (c =? 160) || (c =? 5760)
   || (8192 <=? c) && (c <=? 8202)
   || (c =? 8232) || (c =? 8233) || (c =? 8239) || (c =? 8287)
   || (c =? 12288))%N.

Fixpoint lstrip (s : str) : str :=
  match s with
  | c :: s' => if isspace c then lstrip s' else s
  | [] => []
  end.

Definition rstrip (s : str) : str := rev (lstrip (rev s)).

(** [s.strip()] *)
Definition strip (s : str) : str := rstrip (lstrip s).

(** Truth value of a string: [bool(s)]. *)
Definition truthy (s : str) : bool :=
  match s with [] => false | _ => true end.

(** [s.startswith(p)] *)
Fixpoint startswith (p s : str) : bool :=
  match p, s with
  | [], _ => true
  | c :: p', d :: s' => N.eqb c d && startswith p' s'
  | _ :: _, [] => false
  end.

(** [sep.join(parts)] *)
Fixpoint join (sep : str) (parts : list str) : str :=
  match parts with
  | [] => []
  | [p] => p
  | p :: rest => p ++ sep ++ join sep rest
  end.

(** [c in s] for a single character. *)
Definition contains_char (c : char) (s : str) : bool :=
  existsb (N.eqb c) s.

(** [str(n)] for an [int]. *)
Definition of_Z (n : Z) : str :=
  lit (NilZero.string_of_int (Z.to_int n)).

(** Every code point is below 128. *)
Definition is_ascii (s : str) : bool := forallb (fun c => (c <? 128)%N) s.

(** [s.upper()] on ASCII text. *)
Definition upper_ascii (s : str) : str :=
  List.map (fun c => if ((97 <=? c) && (c <=? 122))%N then (c - 32)%N else c) s.

(** [needle in s]: [needle] occurs in [s] as a contiguous run. *)
Definition occurs_in (needle s : str) : Prop :=
  exists pre post, s = pre ++ needle ++ post.

End PyStr.

Import PyStr.

(* ================================================================== *)
(** ** Byte strings and the UTF-8 codec *)

Module Utf8.

Definition bytes := list byte.

Definition cont (b : N) : bool := ((128 <=? b) && (b <=? 191))%N.

(** Strict UTF-8, as [bytes.decode("utf8")] applies it: no overlong
    form, no surrogate, nothing above U+10FFFF.  [None] stands for
    [UnicodeDecodeError]. *)
Fixpoint decode_N (bs : list N) : option str :=
  match bs with
  | [] => Some []
  | b0 :: r0 =>
    if (b0 <? 128)%N then option_map (cons b0) (decode_N r0)
    else if ((194 <=? b0) && (b0 <=? 223))%N then
      match r0 with
      | b1 :: r1 =>
        if cont b1
        then option_map (cons ((b0 - 192) * 64 + (b1 - 128))%N) (decode_N r1)
        else None
      | _ => None
      end
    else if ((224 <=? b0) && (b0 <=? 239))%N then
      match r0 with
      | b1 :: b2 :: r2 =>
        let lo := if (b0 =? 224)%N then 160%N else 128%N in
        let hi := if (b0 =? 237)%N then 159%N else 191%N in
        if ((lo <=? b1) && (b1 <=? hi))%N && cont b2
        then option_map
               (cons ((b0 - 224) * 4096 + (b1 - 128) * 64 + (b2 - 128))%N)
               (decode_N r2)
        else None
      | _ => None
      end
    else if ((240 <=? b0) && (b0 <=? 244))%N then
      match r0 with
      | b1 :: b2 :: b3 :: r3 =>
        let lo := if (b0 =? 240)%N then 144%N else 128%N in
        let hi := if (b0 =? 244)%N then 143%N else 191%N in
        if ((lo <=? b1) && (b1 <=? hi))%N && cont b2 && cont b3
        then option_map
               (cons ((b0 - 240) * 262144 + (b1 - 128) * 4096
                      + (b2 - 128) * 64 + (b3 - 128))%N)
               (decode_N r3)
        else None
      | _ => None
      end
    else None
  end.

Definition decode (bs : bytes) : option str :=
  decode_N (List.map Byte.to_N bs).

(** [s.encode("ascii")]; [None] stands for [UnicodeEncodeError]. *)
Fixpoint encode_ascii (s : str) : option bytes :=
  match s with
  | [] => Some []
  | c :: s' =>
    if (c <? 128)%N then
      match Byte.of_N c, encode_ascii s' with
      | Some b, Some bs => Some (b :: bs)
      | _, _ => None
      end
    else None
  end.

End Utf8.

Import Utf8.

(* ================================================================== *)
(** ** Dictionaries *)

Module Dict.

(** A [dict] with [str] keys: its items in insertion order. *)
Definition dict (V : Type) := list (str * V).

Section Ops.
Context {V : Type}.

(** [d.get(k)] *)
Fixpoint get (k : str) (d : dict V) : option V :=
  match d with
  | [] => None
  | (k', v) :: d' => if PyStr.eqb k k' then Some v else get k d'
  end.

(** [d[k] = v]: an existing key keeps its place, a new one goes last. *)
Fixpoint set (k : str) (v : V) (d : dict V) : dict V :=
  match d with
  | [] => [(k, v)]
  | (k', v') :: d' =>
    if PyStr.eqb k k' then (k', v) :: d' else (k', v') :: set k v d'
  end.

(** [d.update(other)] *)
Definition update (d other : dict V) : dict V :=
  fold_left (fun acc kv => set (fst kv) (snd kv) acc) other d.

(** [d.get(k, default)] *)
Definition get_default (k : str) (default : V) (d : dict V) : V :=
  match get k d with Some v => v | None => default end.

Definition keys (d : dict V) : list str := List.map fst d.

(** The keys of a Python dict are pairwise distinct. *)
Definition wf (d : dict V) : Prop := NoDup (keys d).

End Ops.

End Dict.

Import Dict.

(* ================================================================== *)
(** ** Values, exceptions and results *)

(** A Python float as far as ordering and sign change go: a finite double
    is the rational number it denotes (both operations are exact on
    doubles), next to the two infinities and NaN. *)
Inductive pyfloat : Type :=
| Finite (q : Q)
| Infinity (negative : bool)
| NaN.

(** The values that travel through the client: query and body parameters
    and decoded JSON. *)
Inductive pyval : Type :=
| PNone
| PBool (b : bool)
| PInt (n : Z)
| PFloat (f : pyfloat)
| PStr (s : str)
| PBytes (b : bytes)
| PList (l : list pyval)
| PDict (d : list (str * pyval)).

(** What the transport hands back: status code, the declared
    [Content-Encoding] and [Content-Type] headers (absent: [None]) and the
    raw body that [read()] returns. *)
Record Response : Type := mkResponse {
  code : Z;
  content_encoding : option str;
  content_type : option str;
  body : bytes
}.

Inductive exn : Type :=
| HTTPError (reason : str) (response : Response)
    (* urllib.error.HTTPError: [code response] is its status *)
| ClientConnectionError (msg : str)
| TypeError
| AttributeError
| UnicodeDecodeError
| UnicodeEncodeError
| LibraryError (cls msg : str).
    (* an exception raised inside a library call, by class name and text *)

Inductive Res (A : Type) : Type :=
| Ok (a : A)
| Raise (e : exn).
Arguments Ok {A} a.
Arguments Raise {A} e.

Definition res_bind {A B} (r : Res A) (k : A -> Res B) : Res B :=
  match r with
  | Ok a => k a
  | Raise e => Raise e
  end.

Definition of_option {A} (e : exn) (o : option A) : Res A :=
  match o with
  | Some a => Ok a
  | None => Raise e
  end.

(* ================================================================== *)
(** ** LibraryMediaSearchParams *)

Module SearchSortBy.
Definition RELEVANCE := lit "relevance".
Definition GLOBAL_POPULARITY := lit "mostpopular".
Definition RELEASE_DATE := lit "releasedate".
Definition DATE_ADDED := lit "newlyadded".
End SearchSortBy.

Record LibraryMediaSearchParams : Type := mkSearchParams {
  query : str;
  title : str;
  creator : str;
  identifier : str;
  formats : list str;
  per_page : Z;
  page : Z;
  sort_by : str;
  show_only_available : bool;
  show_only_prelease : bool;
  media_type : str;
  subject_id : str;
  title_ids : list str
}.

(** The dataclass defaults. *)
Definition default_search_params : LibraryMediaSearchParams :=
  {| query := []; title := []; creator := []; identifier := [];
     formats := []; per_page := 20; page := 1;
     sort_by := SearchSortBy.RELEVANCE;
     show_only_available := false; show_only_prelease := false;
     media_type := []; subject_id := []; title_ids := [] |}.

(** Truth value of a list. *)
Definition nonempty {A} (l : list A) : bool :=
  match l with [] => false | _ => true end.

(** [n or 0] on an [int]. *)
Definition int_or (n default : Z) : Z := if n =? 0 then default else n.

(** [str(value)] for a [bool]. *)
Definition str_of_bool (value : bool) : str :=
  if value then lit "True" else lit "False".

(** [s.lower()] on ASCII text, which is all it is applied to here. *)
Definition lower_ascii (s : str) : str :=
  List.map (fun c => if ((65 <=? c) && (c <=? 90))%N then (c + 32)%N else c) s.

Definition is_empty (self : LibraryMediaSearchParams) : bool :=
  negb (truthy (strip (query self))
        || truthy (strip (title self))
        || truthy (strip (creator self))
        || truthy (strip (identifier self))
        || show_only_available self
        || show_only_prelease self
        || nonempty (title_ids self)
        || truthy (media_type self)
        || truthy (subject_id self)).

Definition convert_bool (value : bool) : str :=
  lower_ascii (str_of_bool value).

Definition convert_to_csv (values : list str) : str :=
  join (lit ",") (List.map strip values).

Definition to_dict (self : LibraryMediaSearchParams) : dict pyval :=
  let result :=
    [(lit "page", PInt (Z.max 1 (int_or (page self) 0)));
     (lit "perPage", PInt (Z.max 1 (int_or (per_page self) 0)))] in
  let result :=
    if truthy (sort_by self)
    then Dict.set (lit "sortBy") (PStr (sort_by self)) result
    else result in
  let result :=
    if nonempty (formats self)
    then Dict.set (lit "format") (PStr (convert_to_csv (formats self))) result
    else result in
  let result :=
    if show_only_available self
    then Dict.set (lit "showOnlyAvailable")
           (PStr (convert_bool (show_only_available self))) result
    else if show_only_prelease self
    then Dict.set (lit "showOnlyPrerelease")
           (PStr (convert_bool (show_only_prelease self))) result
    else result in
  let result :=
    fold_left
      (fun result (a : str * (LibraryMediaSearchParams -> str)) =>
         let v := snd a self in
         if truthy v then Dict.set (fst a) (PStr (strip v)) result else result)
      [(lit "query", query); (lit "title", title);
       (lit "creator", creator); (lit "identifier", identifier)]
      result in
  let result :=
    if nonempty (title_ids self)
    then Dict.set (lit "titleIds") (PStr (join (lit ",") (title_ids self))) result
    else result in
  let result :=
    if truthy (media_type self)
    then Dict.set (lit "mediaTypes") (PStr (media_type self)) result
    else result in
  let result :=
    if truthy (subject_id self)
    then Dict.set (lit "subject") (PStr (subject_id self)) result
    else result in
  result.

(* ================================================================== *)
(** ** The request engine *)

Definition USER_AGENT : str :=
  lit "Mozilla/5.0 (Macintosh; Intel Mac OS X 11_1) AppleWebKit/605.1.15 (KHTML, like Gecko) Version/14.0.2 Safari/605.1.15".
Definition SITE_URL : str := lit "https://libbyapp.com".
Definition THUNDER_API_URL : str := lit "https://thunder.api.overdrive.com/v2/".
Definition CLIENT_ID : str := lit "dewey".
Definition MAX_PER_PAGE : Z := 24.

(** The library calls the client makes.  Their code is not the client's;
    each is a total function that returns a value or raises. *)
Class PyLib : Type := {
  urljoin : str -> str -> Res str;            (* urllib.parse.urljoin(base, url) *)
  urlencode : dict pyval -> bool -> Res str;  (* urllib.parse.urlencode(query, doseq) *)
  json_dumps : pyval -> Res str;              (* json.dumps(obj, separators=(",", ":")) *)
  json_loads : str -> Res pyval;              (* json.loads(text) *)
  gunzip : bytes -> Res bytes;                (* gzip.GzipFile(fileobj=BytesIO(b)).read() *)
  upper : str -> str;                         (* str.upper *)
  (* on ASCII text str.upper changes the letters a-z only *)
  upper_of_ascii : forall s, is_ascii s = true -> upper s = upper_ascii s
}.

(** [POST] parameters: [Union[Dict, str, None]]. *)
Inductive Params : Type :=
| NoParams
| TextParams (s : str)
| DictParams (d : dict pyval).

(** [urllib.request.Request] as [send_request] sets it up. *)
Record Request : Type := mkRequest {
  full_url : str;
  data : option bytes;
  req_headers : dict str;
  get_method : str
}.

(** What one call of [opener.open] does. *)
Inductive OpenResult : Type :=
| Opened (response : Response)
| HttpFailure (reason : str) (response : Response)
    (* raises HTTPError; the status is [code response] *)
| TransportFault (cls msg : str)
    (* raises one of SSLError, socket.timeout, socket.error, URLError,
       HTTPException, ConnectionError (HTTPError apart): class name and
       [str] of the exception *)
| OtherException (cls msg : str).
    (* raises anything else *)

(** The client: [self.max_retries], [self.user_agent], [self.api_base]
    and [self.opener].  The opener is given by what its [k]-th call
    (counting from 0) does with a request; the timeout is part of it. *)
Record OverDriveClient : Type := mkClient {
  max_retries : Z;
  user_agent : str;
  api_base : str;
  opener : Request -> nat -> OpenResult
}.

(** [OverDriveClient(max_retries, user_agent=...)] over a given transport. *)
Definition new_client (max_retries : Z) (user_agent : option str)
    (opener : Request -> nat -> OpenResult) : OverDriveClient :=
  {| max_retries := max_retries;
     user_agent := match user_agent with Some ua => ua | None => USER_AGENT end;
     api_base := THUNDER_API_URL;
     opener := opener |}.

(** What a call leaves behind: the outcome of each [opener.open] so far,
    oldest first, and the warnings logged. *)
Record World : Type := mkWorld {
  trace : list OpenResult;
  warnings : list str
}.

Definition initial : World := {| trace := []; warnings := [] |}.

(** Computations that read and extend the world and may raise. *)
Definition M (A : Type) : Type := World -> Res A * World.

Definition ret {A} (a : A) : M A := fun w => (Ok a, w).

Definition raise {A} (e : exn) : M A := fun w => (Raise e, w).

Definition bind {A B} (m : M A) (k : A -> M B) : M B :=
  fun w =>
    match m w with
    | (Ok a, w') => k a w'
    | (Raise e, w') => (Raise e, w')
    end.

Definition lift {A} (r : Res A) : M A := fun w => (r, w).

Declare Scope py_scope.
Delimit Scope py_scope with py.
Notation "x <- m ;; k" := (bind m (fun x => k))
  (at level 61, m at next level, right associativity) : py_scope.
Notation "m ;;; k" := (bind m (fun _ => k))
  (at level 61, right associativity) : py_scope.
Notation "'try' x <- r ;; k" := (res_bind r (fun x => k))
  (at level 61, x name, r at next level, right associativity) : py_scope.

(** [self.opener.open(req, timeout=self.timeout)], caught: the outcome of
    the next call of the opener, recorded in the trace. *)
Definition open (self : OverDriveClient) (req : Request) : M OpenResult :=
  fun w =>
    let r := opener self req (List.length (trace w)) in
    (Ok r, {| trace := trace w ++ [r]; warnings := warnings w |}).

(** [self.logger.warning("Retrying due to %s: %s", cls, msg)] *)
Definition warning (cls msg : str) : M unit :=
  fun w =>
    (Ok tt,
     {| trace := trace w;
        warnings := warnings w
                    ++ [lit "Retrying due to " ++ cls ++ lit ": " ++ msg] |}).

(** [str(e)] for an [HTTPError]. *)
Definition str_of_HTTPError (reason : str) (response : Response) : str :=
  lit "HTTP Error " ++ PyStr.of_Z (code response) ++ lit ": " ++ reason.

Section Engine.

Context {lib : PyLib}.

Local Open Scope py_scope.

Definition default_headers (self : OverDriveClient) : dict str :=
  [(lit "User-Agent", user_agent self);
   (lit "Referer", SITE_URL ++ lit "/");
   (lit "Origin", SITE_URL);
   (lit "Accept-Encoding", lit "gzip");
   (lit "Cache-Control", lit "no-cache");
   (lit "Pragma", lit "no-cache")].

Definition default_query (self : OverDriveClient) (paging : bool)
  : dict pyval :=
  let query := [(lit "x-client-id", PStr CLIENT_ID)] in
  if paging
  then Dict.update query
         [(lit "page", PInt 1); (lit "perPage", PInt MAX_PER_PAGE)]
  else query.

(** [response.info().get("Content-Encoding") == "gzip"] *)
Definition declares_gzip (response : Response) : bool :=
  match content_encoding response with
  | Some e => PyStr.eqb e (lit "gzip")
  | None => false
  end.

(** The body as [bytes] ([decode] false) or as text ([decode] true). *)
Definition _read_response (response : Response) (decode : bool)
  : Res (if decode then str else bytes) :=
  try res <- (if declares_gzip response
              then gunzip (body response)
              else Ok (body response)) ;;
  if decode as d return Res (if d then str else bytes)
  then of_option UnicodeDecodeError (Utf8.decode res)
  else Ok res.

(** The HTTP method: the one asked for, else by the presence of [params]. *)
Definition choose_method (method : option str) (params : Params) : str :=
  let inferred :=
    match params with
    | NoParams => lit "GET"
    | _ => lit "POST"
    end in
  match method with
  | Some m => if truthy m then m else inferred
  | None => inferred
  end.

(** [params or params == ""] *)
Definition has_body (params : Params) : bool :=
  match params with
  | NoParams => false
  | TextParams _ => true
  | DictParams d => nonempty d
  end.

(** The request body, for [params] that pass [has_body]. *)
Definition encode_body (params : Params) (is_form : bool) : Res bytes :=
  match params with
  | TextParams [] => of_option UnicodeEncodeError (encode_ascii [])
  | TextParams s =>
    if is_form
    then Raise TypeError  (* urlencode of a non-empty str *)
    else try text <- json_dumps (PStr s) ;;
         of_option UnicodeEncodeError (encode_ascii text)
  | DictParams d =>
    if is_form
    then try text <- urlencode d false ;;
         of_option UnicodeEncodeError (encode_ascii text)
    else try text <- json_dumps (PDict d) ;;
         of_option UnicodeEncodeError (encode_ascii text)
  | NoParams => Ok []
  end.

(** Lines 199-232 of [send_request]: everything before the attempt loop. *)
Definition build_request (self : OverDriveClient) (endpoint : str)
    (query : option (dict pyval)) (params : Params) (method : option str)
    (headers : option (dict str)) (is_form : bool) : Res Request :=
  let query :=
    match query with
    | Some q => if nonempty q then q else []
    | None => []
    end in
  try endpoint_url <- urljoin (api_base self) endpoint ;;
  let headers :=
    match headers with
    | None => default_headers self
    | Some h => h
    end in
  try endpoint_url <-
    (if nonempty query
     then try encoded <- urlencode query true ;;
          Ok (endpoint_url
              ++ (if negb (contains_char 63%N endpoint)
                  then lit "?" else lit "&")
              ++ encoded)
     else Ok endpoint_url) ;;
  let method := choose_method method params in
  try body_and_headers <-
    (if has_body params
     then
       let headers :=
         Dict.set (lit "Content-Type")
           (if is_form
            then lit "application/x-www-form-urlencoded"
            else lit "application/json; charset=UTF-8")
           headers in
       try data <- encode_body params is_form ;;
       Ok (Some data, headers)
     else Ok (None, headers)) ;;
  Ok {| full_url := endpoint_url;
        data := fst body_and_headers;
        req_headers := snd body_and_headers;
        get_method := upper method |}.

(** Lines 283-299: what is returned for a response that was opened. *)
Definition handle_response (response : Response) (decode_response : bool)
  : Res pyval :=
  if negb decode_response
  then try raw <- _read_response response false ;; Ok (PBytes raw)
  else
    try response_content <- _read_response response true ;;
    if negb (truthy (strip response_content))
    then Ok (PDict [])
    else
      match content_type response with
      | None => Raise AttributeError  (* None has no startswith *)
      | Some ct =>
        if startswith (lit "application/json") ct
        then json_loads response_content
        else Ok (PStr response_content)
      end.

(** The loop [for attempt in range(0, self.max_retries + 1)], with
    [remaining] attempts left in the range, [attempt] being the next. *)
Fixpoint attempts (self : OverDriveClient) (req : Request)
    (decode_response : bool) (attempt : Z) (remaining : nat) : M pyval :=
  match remaining with
  | O => ret PNone  (* the range is used up: the function ends, None *)
  | S remaining' =>
    outcome <- open self req ;;
    match outcome with
    | HttpFailure reason e =>
      if (attempt <? max_retries self) && (500 <=? code e)
      then
        warning (lit "HTTPError") (str_of_HTTPError reason e) ;;;
        _ <- lift (_read_response e true) ;;  (* logged at debug level *)
        attempts self req decode_response (attempt + 1) remaining'
      else raise (HTTPError reason e)
    | TransportFault cls msg =>
      if attempt <? max_retries self
      then
        warning cls msg ;;;
        attempts self req decode_response (attempt + 1) remaining'
      else raise (ClientConnectionError (cls ++ lit " " ++ msg))
    | OtherException cls msg => raise (LibraryError cls msg)
    | Opened response => lift (handle_response response decode_response)
    end
  end.

Definition send_request (self : OverDriveClient) (endpoint : str)
    (query : option (dict pyval)) (params : Params) (method : option str)
    (headers : option (dict str)) (is_form : bool) (decode_response : bool)
  : M pyval :=
  req <- lift (build_request self endpoint query params method headers
                 is_form) ;;
  attempts self req decode_response 0 (Z.to_nat (max_retries self + 1)).

End Engine.

(* ================================================================== *)
(** ** Endpoint helpers *)

(** The arguments of one call of [send_request]. *)
Module Call.
Record t : Type := mk {
  endpoint : str;
  query : option (dict pyval);
  params : Params;
  method : option str;
  headers : option (dict str);
  is_form : bool;
  decode_response : bool
}.
End Call.

(** [send_request(endpoint, query=query)], the other arguments at their
    defaults. *)
Definition get_call (endpoint : str) (query : dict pyval) : Call.t :=
  {| Call.endpoint := endpoint; Call.query := Some query;
     Call.params := NoParams; Call.method := None; Call.headers := None;
     Call.is_form := true; Call.decode_response := true |}.

(** A website id: [Union[int, str]]. *)
Inductive WebsiteId : Type :=
| IdInt (n : Z)
| IdStr (s : str).

Definition str_of_website_id (website_id : WebsiteId) : str :=
  match website_id with
  | IdInt n => PyStr.of_Z n
  | IdStr s => s
  end.

Section Helpers.

Context {lib : PyLib}.

Definition perform (self : OverDriveClient) (c : Call.t) : M pyval :=
  send_request self (Call.endpoint c) (Call.query c) (Call.params c)
    (Call.method c) (Call.headers c) (Call.is_form c)
    (Call.decode_response c).

Definition media_call (self : OverDriveClient) (title_id : str)
    (kwargs : dict pyval) : Call.t :=
  let params := default_query self false in
  let params := Dict.update params kwargs in
  get_call (lit "media/" ++ title_id) params.

Definition media (self : OverDriveClient) (title_id : str)
    (kwargs : dict pyval) : M pyval :=
  perform self (media_call self title_id kwargs).

Definition media_bulk_call (self : OverDriveClient) (title_ids : list str)
    (kwargs : dict pyval) : Call.t :=
  let params := default_query self false in
  let params :=
    Dict.update params [(lit "titleIds", PStr (join (lit ",") title_ids))] in
  let params := Dict.update params kwargs in
  get_call (lit "media/bulk") params.

Definition media_bulk (self : OverDriveClient) (title_ids : list str)
    (kwargs : dict pyval) : M pyval :=
  perform self (media_bulk_call self title_ids kwargs).

(** The body of [libraries]; the [pageable] decorator around it lives in
    [overdrive/common.py] and is not modelled. *)
Definition libraries_call (self : OverDriveClient)
    (website_ids : option (list WebsiteId)) (kwargs : dict pyval) : Call.t :=
  let params := default_query self true in
  let params :=
    match website_ids with
    | Some ((_ :: _) as ids) =>
      Dict.set (lit "websiteIds")
        (PStr (join (lit ",") (List.map str_of_website_id ids))) params
    | _ => params
    end in
  let params := Dict.update params kwargs in
  get_call (lit "libraries/") params.

Definition libraries (self : OverDriveClient)
    (website_ids : option (list WebsiteId)) (kwargs : dict pyval) : M pyval :=
  perform self (libraries_call self website_ids kwargs).

Definition library_media_call (self : OverDriveClient)
    (library_key title_id : str) (kwargs : dict pyval) : Call.t :=
  let params := default_query self false in
  let params := Dict.update params [(lit "titleIds", PStr title_id)] in
  let params := Dict.update params kwargs in
  get_call (lit "libraries/" ++ library_key ++ lit "/media/" ++ title_id)
    params.

Definition library_media (self : OverDriveClient)
    (library_key title_id : str) (kwargs : dict pyval) : M pyval :=
  perform self (library_media_call self library_key title_id kwargs).

Definition media_search_call (self : OverDriveClient)
    (library_keys : list str) (query : str) (kwargs : dict pyval) : Call.t :=
  let params := default_query self false in
  let params :=
    Dict.update params
      [(lit "libraryKey", PList (List.map PStr library_keys));
       (lit "query", PStr query)] in
  let params := Dict.update params kwargs in
  get_call (lit "media/search/") params.

Definition media_search (self : OverDriveClient)
    (library_keys : list str) (query : str) (kwargs : dict pyval) : M pyval :=
  perform self (media_search_call self library_keys query kwargs).

Definition library_medias_call (self : OverDriveClient)
    (library_key : str) (query : LibraryMediaSearchParams) : Call.t :=
  let params := default_query self false in
  let params := Dict.update params (to_dict query) in
  get_call (lit "libraries/" ++ library_key ++ lit "/media/") params.

Definition library_medias (self : OverDriveClient)
    (library_key : str) (query : LibraryMediaSearchParams) : M pyval :=
  perform self (library_medias_call self library_key query).

Definition library_media_availability_call (self : OverDriveClient)
    (library_key title_id : str) : Call.t :=
  get_call
    (lit "libraries/" ++ library_key ++ lit "/media/" ++ title_id
     ++ lit "/availability")
    (default_query self false).

Definition library_media_availability (self : OverDriveClient)
    (library_key title_id : str) : M pyval :=
  perform self (library_media_availability_call self library_key title_id).

Definition library_media_availability_bulk_call (self : OverDriveClient)
    (library_key : str) (title_ids : list str) : Call.t :=
  let params := [(lit "ids", PList (List.map PStr title_ids))] in
  {| Call.endpoint :=
       lit "libraries/" ++ library_key ++ lit "/media/availability";
     Call.query := Some (default_query self false);
     Call.params := DictParams params;
     Call.method := None; Call.headers := None;
     Call.is_form := false; Call.decode_response := true |}.

Definition library_media_availability_bulk (self : OverDriveClient)
    (library_key : str) (title_ids : list str) : M pyval :=
  perform self
    (library_media_availability_bulk_call self library_key title_ids).

End Helpers.

(* ================================================================== *)
(** ** Data extractors *)

(** One entry of [media_info["formats"]]: the keys [extract_isbn] reads.
    [isbn] is what [f.get("isbn")] gives, [identifiers] what
    [f.get("identifiers", [])] gives. *)
Module MediaFormat.
Record Identifier : Type := mkIdentifier {
  type : str;
  value : str
}.
Record t : Type := mk {
  id : str;
  isbn : option str;
  identifiers : list Identifier
}.
End MediaFormat.

(** [next(iter(l), default)] *)
Definition first_or {A} (l : list A) (default : A) : A :=
  match l with
  | x :: _ => x
  | [] => default
  end.

(** [s in l] for a list of strings. *)
Definition mem (s : str) (l : list str) : bool := existsb (PyStr.eqb s) l.

(** A [for] loop whose body may [return]: the first value returned. *)
Fixpoint first_return {A B} (body : A -> option B) (l : list A) : option B :=
  match l with
  | [] => None
  | x :: l' =>
    match body x with
    | Some r => Some r
    | None => first_return body l'
    end
  end.

(** [f.get("isbn")] is truthy. *)
Definition has_isbn (f : MediaFormat.t) : bool :=
  match MediaFormat.isbn f with
  | Some s => truthy s
  | None => false
  end.

(** [f["isbn"]], for a format that passes [has_isbn]. *)
Definition isbn_of (f : MediaFormat.t) : str :=
  match MediaFormat.isbn f with
  | Some s => s
  | None => []
  end.

(** The identifiers of [f] whose type is [isbn_type]. *)
Definition identifiers_of_type (isbn_type : str) (f : MediaFormat.t)
  : list MediaFormat.Identifier :=
  filter (fun i => PyStr.eqb (MediaFormat.type i) isbn_type)
    (MediaFormat.identifiers f).

(** Lines 375-408 of [extract_isbn], for a settled allow-list. *)
Definition extract_isbn_among (formats : list MediaFormat.t)
    (format_types : list str) : str :=
  let isbn :=
    first_or
      (List.map isbn_of
         (filter (fun f => has_isbn f && mem (MediaFormat.id f) format_types)
            formats))
      [] in
  if truthy isbn then isbn
  else
    match
      first_return
        (fun isbn_type =>
           first_return
             (fun media_format =>
                let isbn :=
                  first_or
                    (List.map MediaFormat.value
                       (identifiers_of_type isbn_type media_format))
                    [] in
                if truthy isbn then Some isbn else None)
             (filter
                (fun f =>
                   mem (MediaFormat.id f) format_types
                   && nonempty (identifiers_of_type isbn_type f))
                formats))
        [lit "LibraryISBN"; lit "ISBN"]
    with
    | Some isbn => isbn
    | None => []
    end.

Definition extract_isbn (formats : list MediaFormat.t)
    (format_types : list str) : str :=
  let format_types :=
    if negb (nonempty format_types)
    then List.map MediaFormat.id formats  (* use any *)
    else format_types in
  extract_isbn_among formats format_types.

(** The scan with no allow-list at all: every format takes part in the
    direct check of the [isbn] field and in the identifier scan. *)
Definition extract_isbn_unrestricted (formats : list MediaFormat.t) : str :=
  let isbn := first_or (List.map isbn_of (filter has_isbn formats)) [] in
  if truthy isbn then isbn
  else
    match
      first_return
        (fun isbn_type =>
           first_return
             (fun media_format =>
                let isbn :=
                  first_or
                    (List.map MediaFormat.value
                       (identifiers_of_type isbn_type media_format))
                    [] in
                if truthy isbn then Some isbn else None)
             (filter (fun f => nonempty (identifiers_of_type isbn_type f))
                formats))
        [lit "LibraryISBN"; lit "ISBN"]
    with
    | Some isbn => isbn
    | None => []
    end.

(* ================================================================== *)
(** ** Availability records and their comparator *)

(** A number of an availability record: a JSON boolean, integer or
    float.  (A [null], a string or a container under one of the compared
    keys makes Python's [<] or [*] raise; such records are not
    availability records.) *)
Inductive number : Type :=
| NBool (b : bool)
| NInt (n : Z)
| NFloat (f : pyfloat).

Definition float_of (v : number) : pyfloat :=
  match v with
  | NBool b => Finite (inject_Z (if b then 1 else 0))
  | NInt n => Finite (inject_Z n)
  | NFloat f => f
  end.

(** [x < y] on floats. *)
Definition float_lt (x y : pyfloat) : bool :=
  match x, y with
  | NaN, _ | _, NaN => false
  | Finite p, Finite q =>
    match Qcompare p q with Lt => true | _ => false end
  | Infinity true, Infinity true => false
  | Infinity true, _ => true
  | _, Infinity true => false
  | Infinity false, _ => false
  | Finite _, Infinity false => true
  end.

(** [a < b] and [a > b] on numbers; Python compares int, bool and float
    by value. *)
Definition number_lt (a b : number) : bool :=
  float_lt (float_of a) (float_of b).
Definition number_gt (a b : number) : bool :=
  float_lt (float_of b) (float_of a).

(** [-1 * v] *)
Definition negate (v : number) : number :=
  match v with
  | NBool b => NInt (- (if b then 1 else 0))
  | NInt n => NInt (- n)
  | NFloat (Finite q) => NFloat (Finite (- q))
  | NFloat (Infinity s) => NFloat (Infinity (negb s))
  | NFloat NaN => NFloat NaN
  end.

(** The table of [sort_availabilities]: key, default, [fn]. *)
Definition availability_keys : list (str * number * option (number -> number)) :=
  [(lit "isAvailable", NBool false, None);
   (lit "luckyDayAvailableCopies", NInt 0, None);
   (lit "estimatedWaitDays", NInt 9999, Some negate);
   (lit "holdsRatio", NInt 9999, Some negate);
   (lit "ownedCopies", NInt 0, None)].

(** The loop of [sort_availabilities] over the rows of the table. *)
Fixpoint compare_by
    (rows : list (str * number * option (number -> number)))
    (a b : dict number) : Z :=
  match rows with
  | [] => 0
  | (key, default, fn) :: rows' =>
    let value_a := Dict.get_default key default a in
    let value_b := Dict.get_default key default b in
    let value_a := match fn with Some f => f value_a | None => value_a end in
    let value_b := match fn with Some f => f value_b | None => value_b end in
    if number_gt value_a value_b then 1
    else if number_lt value_a value_b then -1
    else compare_by rows' a b
  end.

Definition sort_availabilities (a b : dict number) : Z :=
  compare_by availability_keys a b.

(** [sorted(l, key=functools.cmp_to_key(cmp), reverse=reverse)]: a stable
    sort that asks only whether [cmp x y < 0]. *)
Fixpoint insert_sorted {A} (cmp : A -> A -> Z) (x : A) (l : list A) : list A :=
  match l with
  | [] => [x]
  | y :: l' =>
    if cmp y x <? 0 then y :: insert_sorted cmp x l' else x :: l
  end.

Definition sorted_by {A} (cmp : A -> A -> Z) (reverse : bool) (l : list A)
  : list A :=
  if reverse
  then rev (fold_right (insert_sorted cmp) [] (rev l))
  else fold_right (insert_sorted cmp) [] l.

(* ================================================================== *)
(** ** A library instance to run the model *)

(** Each function below computes what Python's computes on the inputs it
    accepts and raises [NotImplementedError] on every other input, so a
    run of the model through this instance that does not end in
    [NotImplementedError] is a run of the client.  [upper] never raises:
    it is [str.upper] on ASCII text, which is all the runs below give it. *)
Module Sample.

Definition not_implemented {A} : Res A :=
  Raise (LibraryError (lit "NotImplementedError") []).

Definition is_alnum (c : char) : bool :=
  ((48 <=? c) && (c <=? 57) || (65 <=? c) && (c <=? 90)
   || (97 <=? c) && (c <=? 122))%N.

(** The characters [quote_plus] leaves alone. *)
Definition is_unreserved (c : char) : bool :=
  (is_alnum c || (c =? 95) || (c =? 46) || (c =? 45) || (c =? 126))%N.

(** A relative path of plain segments: joined to a base that ends in a
    slash it is appended to it. *)
Definition is_plain_path (url : str) : bool :=
  forallb (fun c => (is_alnum c || (c =? 45) || (c =? 95) || (c =? 47))%N) url
  && negb (startswith (lit "/") url).

Definition urljoin (base url : str) : Res str :=
  if PyStr.eqb base THUNDER_API_URL && is_plain_path url
  then Ok (base ++ url)
  else not_implemented.

Definition urlencode_item (item : str * pyval) : option str :=
  let (k, v) := item in
  if forallb is_unreserved k then
    match v with
    | PStr s => if forallb is_unreserved s then Some (k ++ lit "=" ++ s) else None
    | PInt n => Some (k ++ lit "=" ++ PyStr.of_Z n)
    | _ => None
    end
  else None.

Fixpoint urlencode_items (d : dict pyval) : option (list str) :=
  match d with
  | [] => Some []
  | item :: d' =>
    match urlencode_item item, urlencode_items d' with
    | Some s, Some l => Some (s :: l)
    | _, _ => None
    end
  end.

Definition urlencode (d : dict pyval) (doseq : bool) : Res str :=
  match urlencode_items d with
  | Some l => Ok (join (lit "&") l)
  | None => not_implemented
  end.

End Sample.

Definition sample_lib : PyLib := {|
  urljoin := Sample.urljoin;
  urlencode := Sample.urlencode;
  json_dumps := fun _ => Sample.not_implemented;
  json_loads := fun _ => Sample.not_implemented;
  gunzip := fun _ => Sample.not_implemented;
  upper := upper_ascii;
  upper_of_ascii := fun s _ => eq_refl
|}.

(** A server that answers every request alike. *)
Definition always (outcome : OpenResult) : Request -> nat -> OpenResult :=
  fun _ _ => outcome.

(** A server that plays a script, one outcome per call, and repeats the
    last outcome once the script is used up. *)
Definition scripted (first : OpenResult) (rest : list OpenResult)
  : Request -> nat -> OpenResult :=
  fun _ k => nth k (first :: rest) (last rest first).

Definition run {A} (m : M A) : Res A * World := m initial.

Definition ok_json (raw : bytes) : Response :=
  {| code := 200; content_encoding := None;
     content_type := Some (lit "application/json"); body := raw |}.

Definition service_unavailable (raw : bytes) : Response :=
  {| code := 503; content_encoding := None;
     content_type := Some (lit "text/html"); body := raw |}.

Definition not_found : Response :=
  {| code := 404; content_encoding := None;
     content_type := Some (lit "text/html"); body := [] |}.

(* ================================================================== *)
(** ** The turns of the attempt loop *)

Section Verdicts.

Context {lib : PyLib}.
Variable self : OverDriveClient.
Variable req : Request.
Variable decode_response : bool.

(** What one turn of the loop comes to: another turn after a warning, or
    the end of the call (after a warning, in one case). *)
Inductive verdict : Type :=
| Retry (cls msg : str)
| Stop (warned : option (str * str)) (r : Res pyval).

Definition judge (attempt : Z) (o : OpenResult) : verdict :=
  match o with
  | HttpFailure reason e =>
    if (attempt <? max_retries self) && (500 <=? code e)
    then
      match _read_response e true with
      | Ok _ => Retry (lit "HTTPError") (str_of_HTTPError reason e)
      | Raise x =>
        Stop (Some (lit "HTTPError", str_of_HTTPError reason e)) (Raise x)
      end
    else Stop None (Raise (HTTPError reason e))
  | TransportFault cls msg =>
    if attempt <? max_retries self
    then Retry cls msg
    else Stop None (Raise (ClientConnectionError (cls ++ lit " " ++ msg)))
  | OtherException cls msg => Stop None (Raise (LibraryError cls msg))
  | Opened response => Stop None (handle_response response decode_response)
  end.

(** The verdict on the turn that makes call [len + k] of the opener, in a
    loop that starts at [attempt] over a trace of length [len]. *)
Definition verdict_at (attempt : Z) (len k : nat) : verdict :=
  judge (attempt + Z.of_nat k) (opener self req (len + k)).

End Verdicts.

Definition with_warning (w : World) (cls msg : str) : World :=
  {| trace := trace w;
     warnings := warnings w
                 ++ [lit "Retrying due to " ++ cls ++ lit ": " ++ msg] |}.

(** The world after a turn that saw outcome [o]. *)
Definition after (w : World) (o : OpenResult) (warned : option (str * str))
  : World :=
  let w1 := {| trace := trace w ++ [o]; warnings := warnings w |} in
  match warned with
  | Some (cls, msg) => with_warning w1 cls msg
  | None => w1
  end.

(* ================================================================== *)
(** ** What a helper sends, and how a comparator orders *)

(** The query mapping a call hands to [send_request]. *)
Definition sent_query (c : Call.t) : dict pyval :=
  match Call.query c with
  | Some q => q
  | None => []
  end.

(** The call carries an [x-client-id] parameter. *)
Definition has_client_id (c : Call.t) : Prop :=
  exists v, Dict.get (lit "x-client-id") (sent_query c) = Some v.

(** Every keyword argument is in the query with the caller's value. *)
Definition kwargs_win (kwargs : dict pyval) (c : Call.t) : Prop :=
  forall k v, Dict.get k kwargs = Some v ->
              Dict.get k (sent_query c) = Some v.

(** [cmp] orders [a] ahead of [b]: [cmp a b] is negative, which is how
    [functools.cmp_to_key] reads a comparator. *)
Definition orders_ahead {A} (cmp : A -> A -> Z) (a b : A) : Prop :=
  cmp a b < 0.

(* ================================================================== *)
(** ** Inputs for concrete runs *)

Definition latin1_cafe : bytes := [x63; x61; x66; xe9].

Definition unavailable_latin1 : OpenResult :=
  HttpFailure (lit "Service Unavailable") (service_unavailable latin1_cafe).

Definition not_found_failure : OpenResult :=
  HttpFailure (lit "Not Found") not_found.

Definition reset_fault : OpenResult :=
  TransportFault (lit "ConnectionResetError") (lit "[Errno 104] reset").

Definition blank_response : Response :=
  {| code := 200; content_encoding := None;
     content_type := Some (lit "application/json");
     body := [x20; x0a; x09] |}.

(** [send_request(endpoint)], every other argument at its default. *)
Definition plain_get {lib : PyLib} (self : OverDriveClient) (endpoint : str)
  : M pyval :=
  send_request self endpoint None NoParams None None true true.

Definition sample_kwargs : dict pyval :=
  [(lit "x-client-id", PStr (lit "other"));
   (lit "titleIds", PStr (lit "999"));
   (lit "perPage", PInt 100)].

Definition available_one_copy : dict number :=
  [(lit "isAvailable", NBool true); (lit "ownedCopies", NInt 1)].

Definition unavailable_hundred_copies : dict number :=
  [(lit "isAvailable", NBool false); (lit "ownedCopies", NInt 100)].

From Stdlib Require Import Sorting.Sorted Sorting.Permutation.

(* ================================================================== *)
(** ** More of the data extractors *)

(** [extract_asin], lines 333-357. *)
Definition extract_asin (formats : list MediaFormat.t) : str :=
  match
    first_return
      (fun media_format =>
         let asin :=
           first_or
             (List.map MediaFormat.value
                (identifiers_of_type (lit "ASIN") media_format))
             [] in
         if truthy asin then Some asin else None)
      (filter (fun f => nonempty (identifiers_of_type (lit "ASIN") f))
         formats)
  with
  | Some asin => asin
  | None => []
  end.

(** The value of the first identifier of type [ASIN] of a format, the
    empty string when it has none. *)
Definition first_asin_value (f : MediaFormat.t) : str :=
  first_or
    (List.map MediaFormat.value (identifiers_of_type (lit "ASIN") f)) [].

(** The format passes the allow-list of [extract_isbn]; an empty
    allow-list admits every format. *)
Definition admitted (format_types : list str) (f : MediaFormat.t) : bool :=
  negb (nonempty format_types) || mem (MediaFormat.id f) format_types.

(** One value of [media["covers"]]: what [c.get("width")] gives, what
    [c.get("href")] gives, and whether the dict holds any other key
    (which matters for its truth value only). *)
Record Cover : Type := mkCover {
  width : option Z;
  href : option str;
  has_other_keys : bool
}.

(** Truth value of a cover: a dict with at least one key. *)
Definition cover_truthy (c : Cover) : bool :=
  match width c, href c with
  | None, None => has_other_keys c
  | _, _ => true
  end.

(** [c.get("width", 0)] *)
Definition width_or_0 (c : Cover) : Z :=
  match width c with
  | Some w => w
  | None => 0
  end.

(** A [media] dict, as far as [get_best_cover_url] reads it:
    [media.get("covers")], absent ([None]) or a mapping of covers. *)
Record Media : Type := mkMedia {
  covers : option (dict Cover)
}.

(** A comparator for [sorted(l, key=key)] over integer keys. *)
Definition by_key {A} (key : A -> Z) (a b : A) : Z := key a - key b.

(** [l[i]] with Python's negative indices; [None] stands for
    [IndexError]. *)
Definition index {A} (l : list A) (i : Z) : option A :=
  let n := Z.of_nat (List.length l) in
  if (0 <=? i) && (i <? n) then nth_error l (Z.to_nat i)
  else if (- n <=? i) && (i <? 0) then nth_error l (Z.to_nat (n + i))
  else None.

(** [get_best_cover_url], lines 312-330.  A media without [covers] makes
    [[].values()] raise [AttributeError]; a non-empty cover without
    [href] makes the subscript raise [KeyError]. *)
Definition get_best_cover_url (media : Media) (rank : Z)
  : Res (option str) :=
  match covers media with
  | None => Raise AttributeError
  | Some mapping =>
    let covers := sorted_by (by_key width_or_0) true (List.map snd mapping) in
    let cover_highest_res := index covers rank in
    match cover_highest_res with
    | Some c =>
      if cover_truthy c
      then match href c with
           | Some h => Ok (Some h)
           | None => Raise (LibraryError (lit "KeyError") (lit "'href'"))
           end
      else Ok None
    | None => Ok None
    end
  end.

(* ================================================================== *)
(** ** Notions for the further properties *)

(** The query of a call of [send_request]: [None] counts as empty. *)
Definition sent_query_of (query : option (dict pyval)) : dict pyval :=
  match query with
  | Some q => q
  | None => []
  end.

(** The request a call record leads to. *)
Definition build_call {lib : PyLib} (self : OverDriveClient) (c : Call.t)
  : Res Request :=
  build_request self (Call.endpoint c) (Call.query c) (Call.params c)
    (Call.method c) (Call.headers c) (Call.is_form c).

(** An outcome the loop answers with a retry while attempts remain: a
    transport fault, or an HTTP error with a status of 500 or more whose
    body can be read as text. *)
Definition retryable {lib : PyLib} (o : OpenResult) : Prop :=
  match o with
  | TransportFault _ _ => True
  | HttpFailure _ e =>
    500 <= code e /\ exists text, _read_response e true = Ok text
  | _ => False
  end.

(** What the call comes to when an attempt with no retry left ends in
    [o]. *)
Definition last_attempt_result {lib : PyLib} (decode_response : bool)
    (o : OpenResult) : Res pyval :=
  match o with
  | Opened response => handle_response response decode_response
  | HttpFailure reason e => Raise (HTTPError reason e)
  | TransportFault cls msg =>
    Raise (ClientConnectionError (cls ++ lit " " ++ msg))
  | OtherException cls msg => Raise (LibraryError cls msg)
  end.



(** No compared value of the record is NaN. *)
Definition nan_free (a : dict number) : Prop :=
  forall key, Dict.get key a <> Some (NFloat NaN).

(* ================================================================== *)
(** ** More inputs for concrete runs *)

Definition plain_ok : Response :=
  {| code := 200; content_encoding := None;
     content_type := Some (lit "text/plain"); body := [x6f; x6b] |}.

(** A body that is not UTF-8, under no declared content type. *)
Definition untyped_latin1 : Response :=
  {| code := 200; content_encoding := None; content_type := None;
     body := latin1_cafe |}.

(** Text under no declared content type. *)
Definition untyped_text : Response :=
  {| code := 200; content_encoding := None; content_type := None;
     body := [x6f; x6b] |}.

Definition value_error : OpenResult :=
  OtherException (lit "ValueError") (lit "unknown url type").

Definition unavailable_empty : OpenResult :=
  HttpFailure (lit "Service Unavailable") (service_unavailable []).

(* ================================================================== *)
(** ** A library instance with a JSON writer *)

(** [json.dumps(v, separators=(",", ":"))] on values made of [None],
    booleans, integers, strings of printable ASCII characters other
    than the quote and the backslash, lists and dicts; [None] stands for
    a value outside this range. *)
Module SampleJson.

Definition is_plain (c : char) : bool :=
  ((32 <=? c) && (c <=? 126) && negb (c =? 34) && negb (c =? 92))%N.

Definition quoted (s : str) : option str :=
  if forallb is_plain s then Some ([34%N] ++ s ++ [34%N]) else None.

Fixpoint dumps (v : pyval) : option str :=
  match v with
  | PNone => Some (lit "null")
  | PBool b => Some (if b then lit "true" else lit "false")
  | PInt n => Some (PyStr.of_Z n)
  | PStr s => quoted s
  | PList l =>
    option_map (fun parts => lit "[" ++ join (lit ",") parts ++ lit "]")
      ((fix items (l : list pyval) : option (list str) :=
          match l with
          | [] => Some []
          | x :: l' =>
            match dumps x, items l' with
            | Some a, Some b => Some (a :: b)
            | _, _ => None
            end
          end) l)
  | PDict d =>
    option_map (fun parts => lit "{" ++ join (lit ",") parts ++ lit "}")
      ((fix items (d : list (str * pyval)) : option (list str) :=
          match d with
          | [] => Some []
          | (k, x) :: d' =>
            match quoted k, dumps x, items d' with
            | Some q, Some a, Some b => Some ((q ++ lit ":" ++ a) :: b)
            | _, _, _ => None
            end
          end) d)
  | PFloat _ | PBytes _ => None
  end.

Definition json_dumps (v : pyval) : Res str :=
  match dumps v with
  | Some text => Ok text
  | None => Sample.not_implemented
  end.

End SampleJson.

(** [sample_lib] with [json.dumps] on the values above. *)
Definition json_lib : PyLib := {|
  urljoin := Sample.urljoin;
  urlencode := Sample.urlencode;
  json_dumps := SampleJson.json_dumps;
  json_loads := fun _ => Sample.not_implemented;
  gunzip := fun _ => Sample.not_implemented;
  upper := upper_ascii;
  upper_of_ascii := fun s _ => eq_refl
|}.

Definition kindle_format : MediaFormat.t :=
  {| MediaFormat.id := lit "ebook-kindle";
     MediaFormat.isbn := Some (lit "111");
     MediaFormat.identifiers :=
       [{| MediaFormat.type := lit "ASIN"; MediaFormat.value := lit "B00X" |}] |}.

Definition epub_format : MediaFormat.t :=
  {| MediaFormat.id := lit "ebook-epub";
     MediaFormat.isbn := None;
     MediaFormat.identifiers :=
       [{| MediaFormat.type := lit "ISBN"; MediaFormat.value := lit "222" |};
        {| MediaFormat.type := lit "LibraryISBN";
           MediaFormat.value := lit "333" |}] |}.

Definition isbn_only_format : MediaFormat.t :=
  {| MediaFormat.id := lit "ebook-kindle"; MediaFormat.isbn := None;
     MediaFormat.identifiers :=
       [{| MediaFormat.type := lit "ISBN"; MediaFormat.value := lit "111" |}] |}.

Definition waiting_record (days : Z) : dict number :=
  [(lit "isAvailable", NBool false); (lit "estimatedWaitDays", NInt days);
   (lit "holdsRatio", NFloat (Finite (5 # 2)))].

(* ================================================================== *)
(** * Properties *)

(** ** Strings *)

Lemma str_eqb_spec (s t : str) : reflect (s = t) (PyStr.eqb s t).
Proof.
  revert t; induction s as [|c s IH]; intros [|d t]; simpl;
    try (constructor; congruence).
  destruct (N.eqb_spec c d) as [->|Hne]; simpl.
  - destruct (IH t) as [->|Hne]; constructor; congruence.
  - constructor; congruence.
Qed.

Lemma str_eqb_refl (s : str) : PyStr.eqb s s = true.
Proof. destruct (str_eqb_spec s s); congruence. Qed.

Lemma str_eqb_eq (s t : str) : PyStr.eqb s t = true <-> s = t.
Proof. destruct (str_eqb_spec s t); split; congruence. Qed.

Lemma str_eqb_neq (s t : str) : PyStr.eqb s t = false <-> s <> t.
Proof. destruct (str_eqb_spec s t); split; congruence. Qed.

Lemma str_eqb_sym (s t : str) : PyStr.eqb s t = PyStr.eqb t s.
Proof.
  destruct (str_eqb_spec s t) as [->|Hne].
  - now rewrite str_eqb_refl.
  - symmetry. apply str_eqb_neq. congruence.
Qed.

(** ** The UTF-8 codec on examples *)

Example decode_ascii :
  Utf8.decode [x7b; x7d] = Some (lit "{}").
Proof. reflexivity. Qed.

Example decode_two_bytes : Utf8.decode [xc3; xa9] = Some [233%N].
Proof. reflexivity. Qed.

Example decode_euro : Utf8.decode [xe2; x82; xac] = Some [8364%N].
Proof. reflexivity. Qed.

Example decode_latin1_rejected : Utf8.decode [x63; x61; x66; xe9] = None.
Proof. reflexivity. Qed.

Example decode_surrogate_rejected : Utf8.decode [xed; xa0; x80] = None.
Proof. reflexivity. Qed.

(** ** Dictionaries *)

Section DictFacts.

Context {V : Type}.

Lemma dict_get_set (k k' : str) (v : V) (d : dict V) :
  Dict.get k (Dict.set k' v d) = if PyStr.eqb k k' then Some v else Dict.get k d.
Proof.
  induction d as [|[k0 v0] d IH]; simpl.
  - reflexivity.
  - destruct (str_eqb_spec k' k0) as [->|Hne]; simpl.
    + destruct (PyStr.eqb k k0); reflexivity.
    + destruct (str_eqb_spec k k0) as [->|Hne0].
      * apply str_eqb_neq in Hne. rewrite str_eqb_sym, Hne.
        reflexivity.
      * exact IH.
Qed.

Lemma dict_get_set_eq (k : str) (v : V) (d : dict V) :
  Dict.get k (Dict.set k v d) = Some v.
Proof. now rewrite dict_get_set, str_eqb_refl. Qed.

Lemma dict_get_set_ne (k k' : str) (v : V) (d : dict V) :
  PyStr.eqb k k' = false -> Dict.get k (Dict.set k' v d) = Dict.get k d.
Proof. intros H. now rewrite dict_get_set, H. Qed.

Lemma dict_get_None_notin (k : str) (d : dict V) :
  Dict.get k d = None <-> ~ In k (Dict.keys d).
Proof.
  induction d as [|[k0 v0] d IH]; simpl.
  - tauto.
  - destruct (str_eqb_spec k k0) as [->|Hne].
    + split; [discriminate | intros H; exfalso; apply H; now left].
    + rewrite IH. split; intros H.
      * intros [E|I]; [congruence | tauto].
      * tauto.
Qed.

(** After [d.update(other)] a key of [other] has [other]'s value and
    any other key keeps the value it had in [d]. *)
Lemma dict_get_update (k : str) (d other : dict V) :
  Dict.wf other ->
  Dict.get k (Dict.update d other) =
  match Dict.get k other with Some v => Some v | None => Dict.get k d end.
Proof.
  unfold Dict.update, Dict.wf. revert d.
  induction other as [|[k0 v0] other IH]; intros d Hwf; simpl.
  - reflexivity.
  - inversion Hwf as [|? ? Hnotin Hwf']; subst.
    rewrite (IH _ Hwf').
    destruct (str_eqb_spec k k0) as [->|Hne].
    + apply dict_get_None_notin in Hnotin. rewrite Hnotin.
      apply dict_get_set_eq.
    + destruct (Dict.get k other); [reflexivity|].
      apply dict_get_set_ne. now apply str_eqb_neq.
Qed.

Lemma dict_get_update_absent (k : str) (d other : dict V) :
  Dict.get k other = None -> Dict.get k (Dict.update d other) = Dict.get k d.
Proof.
  unfold Dict.update. revert d.
  induction other as [|[k0 v0] other IH]; intros d; simpl.
  - reflexivity.
  - destruct (str_eqb_spec k k0) as [->|Hne]; [discriminate|].
    intros H. rewrite (IH _ H). apply dict_get_set_ne.
    now apply str_eqb_neq.
Qed.

Lemma dict_in_keys_set (k k' : str) (v : V) (d : dict V) :
  In k (Dict.keys (Dict.set k' v d)) <-> k = k' \/ In k (Dict.keys d).
Proof.
  induction d as [|[k0 v0] d IH]; simpl.
  - intuition congruence.
  - destruct (str_eqb_spec k' k0) as [->|Hne]; simpl.
    + intuition congruence.
    + rewrite IH. intuition congruence.
Qed.

Lemma dict_set_wf (k : str) (v : V) (d : dict V) : Dict.wf d -> Dict.wf (Dict.set k v d).
Proof.
  unfold Dict.wf. induction d as [|[k0 v0] d IH]; simpl; intros Hwf.
  - constructor; [tauto | constructor].
  - inversion Hwf as [|? ? Hnotin Hwf']; subst.
    destruct (str_eqb_spec k k0) as [->|Hne]; simpl.
    + now constructor.
    + constructor; [|now apply IH].
      intros Hin. apply (dict_in_keys_set k0 k v d) in Hin.
      destruct Hin; [congruence | tauto].
Qed.

Lemma dict_update_wf (d other : dict V) : Dict.wf d -> Dict.wf (Dict.update d other).
Proof.
  unfold Dict.update. revert d.
  induction other as [|[k0 v0] other IH]; intros d Hwf; simpl.
  - exact Hwf.
  - apply IH. now apply dict_set_wf.
Qed.

End DictFacts.

(** ** The model on examples *)

Example to_dict_defaults :
  to_dict default_search_params =
  [(lit "page", PInt 1); (lit "perPage", PInt 20);
   (lit "sortBy", PStr (lit "relevance"))].
Proof. reflexivity. Qed.

Example to_dict_both_flags :
  to_dict {| query := lit " dune "; title := []; creator := [];
             identifier := []; formats := [lit "ebook-epub "; lit "x"];
             per_page := 0; page := -3; sort_by := [];
             show_only_available := true; show_only_prelease := true;
             media_type := []; subject_id := lit "7";
             title_ids := [] |} =
  [(lit "page", PInt 1); (lit "perPage", PInt 1);
   (lit "format", PStr (lit "ebook-epub,x"));
   (lit "showOnlyAvailable", PStr (lit "true"));
   (lit "query", PStr (lit "dune"));
   (lit "subject", PStr (lit "7"))].
Proof. reflexivity. Qed.

Example extract_isbn_direct_field :
  extract_isbn
    [{| MediaFormat.id := lit "ebook-epub";
        MediaFormat.isbn := Some (lit "123");
        MediaFormat.identifiers := [] |}]
    [lit "ebook-epub"] = lit "123".
Proof. reflexivity. Qed.

Example extract_isbn_library_isbn_first :
  extract_isbn
    [{| MediaFormat.id := lit "ebook-kindle"; MediaFormat.isbn := None;
        MediaFormat.identifiers :=
          [{| MediaFormat.type := lit "ISBN";
              MediaFormat.value := lit "111" |}] |};
     {| MediaFormat.id := lit "ebook-epub"; MediaFormat.isbn := Some [];
        MediaFormat.identifiers :=
          [{| MediaFormat.type := lit "ISBN";
              MediaFormat.value := lit "222" |};
           {| MediaFormat.type := lit "LibraryISBN";
              MediaFormat.value := lit "333" |}] |}]
    [] = lit "333".
Proof. reflexivity. Qed.

Example extract_isbn_allow_list_filters :
  extract_isbn
    [{| MediaFormat.id := lit "ebook-kindle";
        MediaFormat.isbn := Some (lit "111");
        MediaFormat.identifiers := [] |}]
    [lit "ebook-epub"] = [].
Proof. reflexivity. Qed.

Example run_plain_text :
  run (media (lib := sample_lib)
         (new_client 0 None
            (always (Opened {| code := 200; content_encoding := None;
                               content_type := Some (lit "text/plain");
                               body := [x6f; x6b] |})))
         (lit "1234") []) =
  (Ok (PStr (lit "ok")),
   {| trace := [Opened {| code := 200; content_encoding := None;
                          content_type := Some (lit "text/plain");
                          body := [x6f; x6b] |}];
      warnings := [] |}).
Proof. reflexivity. Qed.

Example run_request_built :
  build_request (lib := sample_lib) (new_client 0 None (always (Opened not_found)))
    (lit "media/1234") (Some [(lit "x-client-id", PStr CLIENT_ID)])
    NoParams None None true =
  Ok {| full_url :=
          lit "https://thunder.api.overdrive.com/v2/media/1234?x-client-id=dewey";
        data := None;
        req_headers := default_headers (new_client 0 None (always (Opened not_found)));
        get_method := lit "GET" |}.
Proof. reflexivity. Qed.

Example run_retry_then_success :
  run (media (lib := sample_lib)
         (new_client 2 None
            (scripted (TransportFault (lit "ConnectionResetError") (lit "reset"))
               [Opened (ok_json [x20; x0a])]))
         (lit "1234") []) =
  (Ok (PDict []),
   {| trace := [TransportFault (lit "ConnectionResetError") (lit "reset");
                Opened (ok_json [x20; x0a])];
      warnings := [lit "Retrying due to ConnectionResetError: reset"] |}).
Proof. reflexivity. Qed.

Example run_503_exhausted :
  run (media (lib := sample_lib)
         (new_client 2 None
            (always (HttpFailure (lit "Service Unavailable")
                       (service_unavailable []))))
         (lit "1234") []) =
  (Raise (HTTPError (lit "Service Unavailable") (service_unavailable [])),
   {| trace := repeat (HttpFailure (lit "Service Unavailable")
                         (service_unavailable [])) 3;
      warnings := repeat (lit "Retrying due to HTTPError: HTTP Error 503: Service Unavailable") 2 |}).
Proof. reflexivity. Qed.

Example run_negative_budget :
  run (media (lib := sample_lib)
         (new_client (-1) None (always (Opened not_found))) (lit "1234") []) =
  (Ok PNone, initial).
Proof. reflexivity. Qed.

(** ** The attempt loop *)

Lemma map_seq_S {A} (f : nat -> A) (n : nat) :
  List.map f (seq 0 (S n)) = f 0%nat :: List.map (fun k => f (S k)) (seq 0 n).
Proof. cbn [seq List.map]. now rewrite <- seq_shift, map_map. Qed.

Section Loop.

Context {lib : PyLib}.
Variable self : OverDriveClient.
Variable req : Request.
Variable decode_response : bool.

Lemma trace_after (w : World) (o : OpenResult) warned :
  trace (after w o warned) = trace w ++ [o].
Proof. destruct warned as [[cls msg]|]; reflexivity. Qed.

(** One turn of the loop. *)
Lemma attempts_step (attempt : Z) (remaining : nat) (w : World) :
  attempts self req decode_response attempt (S remaining) w =
  let o := opener self req (List.length (trace w)) in
  match judge self decode_response attempt o with
  | Retry cls msg =>
    attempts self req decode_response (attempt + 1) remaining
      (after w o (Some (cls, msg)))
  | Stop warned r => (r, after w o warned)
  end.
Proof.
  cbn [attempts]. unfold bind at 1. unfold open at 1. cbv zeta.
  unfold judge.
  destruct (opener self req (List.length (trace w)))
    as [r|reason e|cls msg|cls msg].
  - reflexivity.
  - destruct ((attempt <? max_retries self) && (500 <=? code e)).
    + unfold bind, warning, lift. cbn.
      destruct (_read_response e true); reflexivity.
    + reflexivity.
  - destruct (attempt <? max_retries self); reflexivity.
  - reflexivity.
Qed.

(** A call only adds to the trace, one outcome per turn at most. *)
Lemma attempts_trace (remaining : nat) :
  forall attempt w r w',
    attempts self req decode_response attempt remaining w = (r, w') ->
    exists l, trace w' = trace w ++ l /\ (List.length l <= remaining)%nat.
Proof.
  induction remaining as [|n IH]; intros attempt w r w' H.
  - cbn in H. inversion H; subst. exists [].
    split; [now rewrite app_nil_r | auto].
  - rewrite attempts_step in H. cbv zeta in H.
    destruct (judge self decode_response attempt _) as [cls msg|warned r0].
    + destruct (IH _ _ _ _ H) as (l & Hl & Hlen).
      rewrite trace_after, <- app_assoc in Hl.
      eexists. split; [exact Hl|]. simpl. lia.
    + inversion H; subst. rewrite trace_after.
      eexists. split; [reflexivity|]. simpl. lia.
Qed.

(** The outcome at position [i] of the final trace, for [i] past the
    trace the loop started from, is what the opener did on call [i]. *)
Lemma attempts_nth (remaining : nat) :
  forall attempt w r w' i o,
    attempts self req decode_response attempt remaining w = (r, w') ->
    (List.length (trace w) <= i)%nat ->
    nth_error (trace w') i = Some o ->
    opener self req i = o.
Proof.
  induction remaining as [|n IH]; intros attempt w r w' i o H Hi Hnth.
  - cbn in H. inversion H; subst.
    assert (i < List.length (trace w'))%nat
      by (apply nth_error_Some; congruence).
    lia.
  - rewrite attempts_step in H. cbv zeta in H.
    destruct (Nat.eq_dec i (List.length (trace w))) as [->|Hne].
    + assert (Ht : exists l,
        trace w' = trace w ++ [opener self req (List.length (trace w))] ++ l).
      { destruct (judge self decode_response attempt _) as [cls msg|warned r0].
        - destruct (attempts_trace _ _ _ _ _ H) as (l & Hl & _).
          rewrite trace_after, <- app_assoc in Hl. eauto.
        - inversion H; subst. rewrite trace_after. exists [].
          reflexivity. }
      destruct Ht as (l & Ht). rewrite Ht in Hnth.
      rewrite nth_error_app2, Nat.sub_diag in Hnth by lia.
      cbn in Hnth. congruence.
    + destruct (judge self decode_response attempt _) as [cls msg|warned r0].
      * apply (IH _ _ _ _ _ _ H); [|exact Hnth].
        rewrite trace_after, length_app. cbn. lia.
      * inversion H; subst w'. rewrite trace_after in Hnth.
        assert (i < List.length (trace w ++ [opener self req (List.length (trace w))]))%nat
          by (apply nth_error_Some; congruence).
        rewrite length_app in *. cbn in *. lia.
Qed.

(** Turns that ask for a retry are followed by the next turn; the first
    turn that does not ends the call with its result. *)
Lemma attempts_run (remaining : nat) :
  forall attempt w m warned r,
    (m < remaining)%nat ->
    (forall k, (k < m)%nat ->
       exists cls msg,
         verdict_at self req decode_response attempt (List.length (trace w)) k = Retry cls msg) ->
    verdict_at self req decode_response attempt (List.length (trace w)) m = Stop warned r ->
    exists w',
      attempts self req decode_response attempt remaining w = (r, w')
      /\ trace w' =
         trace w
         ++ List.map (fun k => opener self req (List.length (trace w) + k))
              (seq 0 (S m)).
Proof.
  induction remaining as [|n IH]; intros attempt w m warned r Hm Hretry Hstop;
    [lia|].
  rewrite attempts_step. cbv zeta.
  destruct m as [|m].
  - unfold verdict_at in Hstop. rewrite Z.add_0_r, Nat.add_0_r in Hstop.
    rewrite Hstop. eexists. split; [reflexivity|].
    rewrite trace_after. cbn. now rewrite Nat.add_0_r.
  - destruct (Hretry 0%nat ltac:(lia)) as (cls & msg & H0).
    unfold verdict_at in H0. rewrite Z.add_0_r, Nat.add_0_r in H0.
    rewrite H0.
    set (w2 := after w _ _).
    assert (Hlen : List.length (trace w2) = S (List.length (trace w))).
    { unfold w2. rewrite trace_after, length_app. cbn. lia. }
    destruct (IH (attempt + 1) w2 m warned r) as (w' & Hrun & Htrace).
    + lia.
    + intros k Hk. destruct (Hretry (S k) ltac:(lia)) as (c & g & Hv).
      exists c, g. unfold verdict_at in *. rewrite Hlen.
      replace (attempt + 1 + Z.of_nat k) with (attempt + Z.of_nat (S k)) by lia.
      replace (S (List.length (trace w)) + k)%nat
        with (List.length (trace w) + S k)%nat by lia.
      exact Hv.
    + unfold verdict_at in *. rewrite Hlen.
      replace (attempt + 1 + Z.of_nat m) with (attempt + Z.of_nat (S m)) by lia.
      replace (S (List.length (trace w)) + m)%nat
        with (List.length (trace w) + S (m))%nat by lia.
      exact Hstop.
    + exists w'. split; [exact Hrun|].
      rewrite Htrace, Hlen. unfold w2. rewrite trace_after, <- app_assoc.
      f_equal.
      rewrite (map_seq_S (fun k => opener self req (List.length (trace w) + k))).
      cbn [app]. f_equal; [f_equal; lia|].
      apply map_ext. intros k. f_equal. lia.
Qed.

(** A turn whose verdict is to stop is the last turn of the call, and
    its result is the result of the call. *)
Lemma attempts_stop_is_last (remaining : nat) :
  forall attempt w r w' i o warned r0,
    attempts self req decode_response attempt remaining w = (r, w') ->
    (List.length (trace w) <= i)%nat ->
    nth_error (trace w') i = Some o ->
    judge self decode_response (attempt + Z.of_nat (i - List.length (trace w))) o = Stop warned r0 ->
    r = r0 /\ List.length (trace w') = S i.
Proof.
  induction remaining as [|n IH];
    intros attempt w r w' i o warned r0 H Hi Hnth Hj.
  - cbn in H. inversion H; subst.
    assert (i < List.length (trace w'))%nat
      by (apply nth_error_Some; congruence).
    lia.
  - pose proof (attempts_nth _ _ _ _ _ _ _ H Hi Hnth) as Ho.
    rewrite attempts_step in H. cbv zeta in H.
    destruct (Nat.eq_dec i (List.length (trace w))) as [->|Hne].
    + rewrite Nat.sub_diag, Z.add_0_r, <- Ho in Hj. rewrite Hj in H.
      inversion H; subst. rewrite trace_after, length_app. cbn.
      split; [reflexivity | lia].
    + destruct (judge self decode_response attempt _) as [cls msg|warned1 r1].
      * apply (IH _ _ _ _ i o warned r0 H).
        -- rewrite trace_after, length_app. cbn. lia.
        -- exact Hnth.
        -- rewrite trace_after, length_app. cbn.
           replace (attempt + 1 + Z.of_nat (i - (List.length (trace w) + 1)))
             with (attempt + Z.of_nat (i - List.length (trace w))) by lia.
           exact Hj.
      * inversion H; subst w'. rewrite trace_after in Hnth.
        assert (i < List.length (trace w ++ [opener self req (List.length (trace w))]))%nat
          by (apply nth_error_Some; congruence).
        rewrite length_app in *. cbn in *. lia.
Qed.

End Loop.

(** ** Blank text *)

Lemma lstrip_nil_iff (s : str) :
  lstrip s = [] <-> forallb isspace s = true.
Proof.
  induction s as [|c s IH]; simpl.
  - tauto.
  - destruct (isspace c); simpl.
    + exact IH.
    + split; discriminate.
Qed.

Lemma lstrip_idempotent (s : str) : lstrip (lstrip s) = lstrip s.
Proof.
  induction s as [|c s IH]; simpl.
  - reflexivity.
  - destruct (isspace c) eqn:E.
    + exact IH.
    + simpl. now rewrite E.
Qed.

(** [s.strip()] is empty exactly when [s] is empty or whitespace only. *)
Lemma strip_nil_iff (s : str) :
  strip s = [] <-> forallb isspace s = true.
Proof.
  unfold strip, rstrip. split.
  - intros H.
    assert (H1 : lstrip (rev (lstrip s)) = []).
    { destruct (lstrip (rev (lstrip s))) as [|c l]; [reflexivity|].
      apply (f_equal (@List.length _)) in H.
      rewrite length_rev in H. discriminate. }
    apply lstrip_nil_iff in H1.
    apply lstrip_nil_iff. rewrite <- lstrip_idempotent.
    apply lstrip_nil_iff. apply forallb_forall. intros c Hc.
    rewrite forallb_forall in H1. apply H1. now apply in_rev in Hc.
  - intros H. apply lstrip_nil_iff in H. now rewrite H.
Qed.

(** ** The request engine *)

Section EngineFacts.

Context {lib : PyLib}.

Lemma send_request_unfold (self : OverDriveClient) endpoint query params
    method headers is_form decode_response (w : World) :
  send_request self endpoint query params method headers is_form
    decode_response w =
  match build_request self endpoint query params method headers is_form with
  | Ok req =>
    attempts self req decode_response 0 (Z.to_nat (max_retries self + 1)) w
  | Raise e => (Raise e, w)
  end.
Proof.
  unfold send_request, bind, lift.
  destruct (build_request self endpoint query params method headers is_form);
    reflexivity.
Qed.

(** A request that could not be built is not sent. *)
Lemma send_request_trace_built (self : OverDriveClient) endpoint query params
    method headers is_form decode_response r w o :
  send_request self endpoint query params method headers is_form
    decode_response initial = (r, w) ->
  In o (trace w) ->
  exists req,
    build_request self endpoint query params method headers is_form = Ok req
    /\ attempts self req decode_response 0 (Z.to_nat (max_retries self + 1))
         initial = (r, w).
Proof.
  rewrite send_request_unfold.
  destruct (build_request self endpoint query params method headers is_form)
    as [req|e]; intros H Hin.
  - eauto.
  - inversion H; subst. destruct Hin.
Qed.

(** The method of a request that was built. *)
Lemma build_request_method (self : OverDriveClient) endpoint query params
    method headers is_form req :
  build_request self endpoint query params method headers is_form = Ok req ->
  get_method req = upper (choose_method method params).
Proof.
  unfold build_request.
  destruct (urljoin (api_base self) endpoint) as [u|]; cbn [res_bind];
    [|discriminate].
  match goal with
  | |- context [res_bind ?x _] => destruct x as [u'|]; cbn [res_bind];
                                  [|discriminate]
  end.
  match goal with
  | |- context [res_bind ?x _] => destruct x as [bh|]; cbn [res_bind];
                                  [|discriminate]
  end.
  intros H. inversion H. reflexivity.
Qed.

End EngineFacts.

(* ================================================================== *)
(** * The specified properties *)

(** ** Retry on server errors *)

(** The behaviour the retry loop is written for: when every attempt ends
    in an HTTP error with a status of 500 or more, and the body of each
    error that is retried can be read as text, the call makes
    [max_retries + 1] attempts and raises the last error. *)
Lemma server_errors_retried_until_exhausted {lib : PyLib}
    (self : OverDriveClient) endpoint query params method headers is_form
    decode_response req (reason : nat -> str) (e : nat -> Response) :
  0 <= max_retries self ->
  build_request self endpoint query params method headers is_form = Ok req ->
  (forall k, Z.of_nat k <= max_retries self ->
     opener self req k = HttpFailure (reason k) (e k) /\ 500 <= code (e k)) ->
  (forall k, Z.of_nat k < max_retries self ->
     exists text, _read_response (e k) true = Ok text) ->
  let last := Z.to_nat (max_retries self) in
  exists w,
    send_request self endpoint query params method headers is_form
      decode_response initial
    = (Raise (HTTPError (reason last) (e last)), w)
    /\ trace w =
       List.map (fun k => HttpFailure (reason k) (e k)) (seq 0 (S last)).
Proof.
  intros HN Hbuild Hnet Hread last.
  rewrite send_request_unfold, Hbuild.
  destruct (attempts_run self req decode_response
              (Z.to_nat (max_retries self + 1)) 0 initial last None
              (Raise (HTTPError (reason last) (e last))))
    as (w & Hrun & Htrace).
  - unfold last. lia.
  - intros k Hk. unfold verdict_at, judge. cbn [trace initial List.length].
    cbn [Nat.add].
    destruct (Hnet k ltac:(unfold last in Hk; lia)) as [-> Hcode].
    destruct (Hread k ltac:(unfold last in Hk; lia)) as (text & ->).
    replace (0 + Z.of_nat k <? max_retries self) with true
      by (symmetry; apply Z.ltb_lt; unfold last in Hk; lia).
    replace (500 <=? code (e k)) with true
      by (symmetry; apply Z.leb_le; lia).
    cbn. eauto.
  - unfold verdict_at, judge. cbn [trace initial List.length Nat.add].
    destruct (Hnet last ltac:(unfold last; lia)) as [-> Hcode].
    replace (0 + Z.of_nat last <? max_retries self) with false
      by (symmetry; apply Z.ltb_ge; unfold last; lia).
    reflexivity.
  - exists w. split; [exact Hrun|].
    rewrite Htrace. cbn [trace initial app List.length].
    apply map_ext_in. intros k Hk. apply in_seq in Hk. cbn [Nat.add].
    destruct (Hnet k ltac:(unfold last in Hk; lia)) as [-> _]. reflexivity.
Qed.

(** C1.  With [max_retries = 1] and a server that answers every attempt
    with a 503 whose body is Latin-1 text, the call makes one attempt,
    not two, and raises [UnicodeDecodeError], not the HTTP error: the
    body of the error is read and decoded for the debug log before the
    retry.  This holds for whatever request was built and whatever the
    library does, and for [send_request("media/1234")] in a run. *)
Theorem retry_lost_when_error_body_is_not_utf8 :
  let self := new_client 1 None (always unavailable_latin1) in
  let w :=
    {| trace := [unavailable_latin1];
       warnings :=
         [lit "Retrying due to HTTPError: HTTP Error 503: Service Unavailable"] |} in
  (forall (lib : PyLib) (req : Request) (decode_response : bool),
     attempts self req decode_response 0 (Z.to_nat (max_retries self + 1))
       initial
     = (Raise UnicodeDecodeError, w))
  /\ plain_get (lib := sample_lib) self (lit "media/1234") initial
     = (Raise UnicodeDecodeError, w).
Proof.
  split.
  - intros lib req decode_response. reflexivity.
  - reflexivity.
Qed.

(** ** Client errors *)

(** C2.  Whatever [max_retries] is, an attempt that ends in an HTTP error
    with a 4xx status is the last attempt of the call, and the call
    raises that error; when it is the first attempt (position 0), it is
    the only one. *)
Theorem client_error_is_not_retried {lib : PyLib}
    (self : OverDriveClient) endpoint query params method headers is_form
    decode_response r w (i : nat) reason e :
  send_request self endpoint query params method headers is_form
    decode_response initial = (r, w) ->
  nth_error (trace w) i = Some (HttpFailure reason e) ->
  400 <= code e < 500 ->
  r = Raise (HTTPError reason e) /\ List.length (trace w) = S i.
Proof.
  intros Hrun Hnth Hcode.
  destruct (send_request_trace_built _ _ _ _ _ _ _ _ _ _ _ Hrun
              (nth_error_In _ _ Hnth)) as (req & _ & Hloop).
  apply (attempts_stop_is_last self req decode_response _ _ _ _ _ i
           (HttpFailure reason e) None _ Hloop).
  - cbn. lia.
  - exact Hnth.
  - unfold judge.
    replace (500 <=? code e) with false by (symmetry; apply Z.leb_gt; lia).
    now rewrite andb_false_r.
Qed.

Lemma client_error_is_not_retried_witness :
  let self := new_client 3 None (always not_found_failure) in
  let w := {| trace := [not_found_failure]; warnings := [] |} in
  plain_get (lib := sample_lib) self (lit "media/1234") initial
  = (Raise (HTTPError (lit "Not Found") not_found), w)
  /\ nth_error (trace w) 0 = Some (HttpFailure (lit "Not Found") not_found)
  /\ 400 <= code not_found < 500
  /\ Raise (HTTPError (lit "Not Found") not_found)
     = Raise (A := pyval) (HTTPError (lit "Not Found") not_found)
  /\ List.length (trace w) = 1%nat.
Proof.
  cbv zeta.
  assert (Hrun :
    send_request (lib := sample_lib)
      (new_client 3 None (always not_found_failure)) (lit "media/1234")
      None NoParams None None true true initial
    = (Raise (HTTPError (lit "Not Found") not_found),
       {| trace := [not_found_failure]; warnings := [] |}))
    by reflexivity.
  assert (Hcode : 400 <= code not_found < 500) by (cbn; lia).
  split; [exact Hrun|]. split; [reflexivity|]. split; [exact Hcode|].
  exact (client_error_is_not_retried (lib := sample_lib) _ _ _ _ _ _ _ _ _ _
           0%nat _ _ Hrun eq_refl Hcode).
Defined.

(** ** Decoding *)

(** C3.  In decode mode, when the response that was opened has a body
    that reads (after the optional gzip inflation and UTF-8 decoding) as
    text that is empty or whitespace only, the call returns the empty
    mapping, whatever the status, the declared encoding and the declared
    content type, absent content type included. *)
Theorem blank_body_decodes_to_empty_mapping {lib : PyLib}
    (self : OverDriveClient) endpoint query params method headers is_form
    r w status encoding (declared_type : option str) raw text :
  send_request self endpoint query params method headers is_form true
    initial = (r, w) ->
  In (Opened (mkResponse status encoding declared_type raw)) (trace w) ->
  _read_response (mkResponse status encoding declared_type raw) true
  = Ok text ->
  forallb isspace text = true ->
  r = Ok (PDict []).
Proof.
  intros Hrun Hin Hread Hblank.
  destruct (send_request_trace_built _ _ _ _ _ _ _ _ _ _ _ Hrun Hin)
    as (req & _ & Hloop).
  destruct (In_nth_error _ _ Hin) as (i & Hnth).
  destruct (attempts_stop_is_last self req true _ _ _ _ _ i
              (Opened (mkResponse status encoding declared_type raw)) None
              (Ok (PDict [])) Hloop) as [Hr _].
  - cbn. lia.
  - exact Hnth.
  - unfold judge, handle_response. cbn [negb].
    rewrite Hread. cbn [res_bind].
    apply strip_nil_iff in Hblank. now rewrite Hblank.
  - exact Hr.
Qed.

Lemma blank_body_decodes_to_empty_mapping_witness :
  let self := new_client 0 None (always (Opened blank_response)) in
  let w := {| trace := [Opened blank_response]; warnings := [] |} in
  plain_get (lib := sample_lib) self (lit "media/1234") initial
  = (Ok (PDict []), w)
  /\ In (Opened blank_response) (trace w)
  /\ _read_response (lib := sample_lib) blank_response true
     = Ok [32%N; 10%N; 9%N]
  /\ forallb isspace [32%N; 10%N; 9%N] = true
  /\ Ok (PDict []) = Ok (PDict []).
Proof.
  cbv zeta.
  assert (Hrun :
    send_request (lib := sample_lib)
      (new_client 0 None (always (Opened blank_response))) (lit "media/1234")
      None NoParams None None true true initial
    = (Ok (PDict []),
       {| trace := [Opened blank_response]; warnings := [] |}))
    by reflexivity.
  assert (Hin : In (Opened blank_response)
                  (trace {| trace := [Opened blank_response];
                            warnings := [] |}))
    by (left; reflexivity).
  split; [exact Hrun|]. split; [exact Hin|].
  split; [reflexivity|]. split; [reflexivity|].
  exact (blank_body_decodes_to_empty_mapping (lib := sample_lib) _ _ _ _ _ _
           _ _ _ _ _ _ _ _ Hrun Hin eq_refl eq_refl).
Defined.

(** ** The HTTP method *)

(** C4.  The method of the request that [send_request] builds is the
    [method] argument in upper case when one is given (a non-empty
    string); when none is given ([None], or the empty string, which the
    code treats alike) it is GET if [params] is absent and POST
    otherwise. *)
Theorem request_method_is_explicit_or_inferred {lib : PyLib}
    (self : OverDriveClient) endpoint query params method headers is_form
    req :
  build_request self endpoint query params method headers is_form = Ok req ->
  (forall m, method = Some m -> m <> [] -> get_method req = upper m)
  /\ (method = None \/ method = Some [] ->
      (params = NoParams -> get_method req = lit "GET")
      /\ (params <> NoParams -> get_method req = lit "POST")).
Proof.
  intros Hbuild. apply build_request_method in Hbuild. rewrite Hbuild.
  assert (Hget : upper (lit "GET") = lit "GET")
    by (now rewrite upper_of_ascii).
  assert (Hpost : upper (lit "POST") = lit "POST")
    by (now rewrite upper_of_ascii).
  split.
  - intros m -> Hm. unfold choose_method.
    destruct m; [congruence | reflexivity].
  - intros Hnone.
    assert (Hinf : choose_method method params =
                   match params with
                   | NoParams => lit "GET"
                   | _ => lit "POST"
                   end)
      by (destruct Hnone as [-> | ->]; reflexivity).
    rewrite Hinf. split.
    + intros ->. exact Hget.
    + intros Hp. destruct params; [congruence | exact Hpost | exact Hpost].
Qed.

Lemma request_method_is_explicit_or_inferred_witness :
  let self := new_client 0 None (always (Opened blank_response)) in
  let req :=
    {| full_url := lit "https://thunder.api.overdrive.com/v2/media/1234";
       data := Some [];
       req_headers :=
         default_headers self
         ++ [(lit "Content-Type", lit "application/x-www-form-urlencoded")];
       get_method := lit "POST" |} in
  build_request (lib := sample_lib) self (lit "media/1234") None
    (TextParams []) None None true = Ok req
  /\ get_method req = lit "POST".
Proof.
  cbv zeta.
  assert (Hbuild :
    build_request (lib := sample_lib)
      (new_client 0 None (always (Opened blank_response)))
      (lit "media/1234") None (TextParams []) None None true
    = Ok {| full_url := lit "https://thunder.api.overdrive.com/v2/media/1234";
            data := Some [];
            req_headers :=
              default_headers
                (new_client 0 None (always (Opened blank_response)))
              ++ [(lit "Content-Type",
                   lit "application/x-www-form-urlencoded")];
            get_method := lit "POST" |})
    by reflexivity.
  split; [exact Hbuild|].
  refine (proj2 (proj2 (request_method_is_explicit_or_inferred
                          (lib := sample_lib) _ _ _ _ _ _ _ _ Hbuild)
                   (or_introl eq_refl)) _).
  discriminate.
Defined.

Example explicit_method_is_upper_cased :
  option_map get_method
    (match build_request (lib := sample_lib)
             (new_client 0 None (always (Opened blank_response)))
             (lit "media/1234") None NoParams (Some (lit "delete")) None true
     with Ok req => Some req | Raise _ => None end)
  = Some (lit "DELETE").
Proof. reflexivity. Qed.

(** ** Transport faults *)

(** C8.  When every attempt ends in a transport fault, the call makes
    [max_retries + 1] attempts and raises [ClientConnectionError] with
    the message ["<class> <message>"] of the fault of the last attempt:
    the class name and the message both occur in it. *)
Theorem exhausted_faults_raise_connection_error {lib : PyLib}
    (self : OverDriveClient) endpoint query params method headers is_form
    decode_response req (cls msg : nat -> str) :
  0 <= max_retries self ->
  build_request self endpoint query params method headers is_form = Ok req ->
  (forall k, Z.of_nat k <= max_retries self ->
     opener self req k = TransportFault (cls k) (msg k)) ->
  let last := Z.to_nat (max_retries self) in
  let message := cls last ++ lit " " ++ msg last in
  exists w,
    send_request self endpoint query params method headers is_form
      decode_response initial
    = (Raise (ClientConnectionError message), w)
    /\ trace w =
       List.map (fun k => TransportFault (cls k) (msg k)) (seq 0 (S last))
    /\ occurs_in (cls last) message
    /\ occurs_in (msg last) message.
Proof.
  intros HN Hbuild Hnet last message.
  rewrite send_request_unfold, Hbuild.
  destruct (attempts_run self req decode_response
              (Z.to_nat (max_retries self + 1)) 0 initial last None
              (Raise (ClientConnectionError message)))
    as (w & Hrun & Htrace).
  - unfold last. lia.
  - intros k Hk. unfold verdict_at, judge.
    cbn [trace initial List.length Nat.add].
    rewrite (Hnet k) by (unfold last in Hk; lia).
    replace (0 + Z.of_nat k <? max_retries self) with true
      by (symmetry; apply Z.ltb_lt; unfold last in Hk; lia).
    eauto.
  - unfold verdict_at, judge. cbn [trace initial List.length Nat.add].
    rewrite (Hnet last) by (unfold last; lia).
    replace (0 + Z.of_nat last <? max_retries self) with false
      by (symmetry; apply Z.ltb_ge; unfold last; lia).
    reflexivity.
  - exists w. split; [exact Hrun|]. split.
    + rewrite Htrace. cbn [trace initial app List.length].
      apply map_ext_in. intros k Hk. apply in_seq in Hk. cbn [Nat.add].
      apply Hnet. unfold last in Hk. lia.
    + split.
      * exists [], (lit " " ++ msg last). reflexivity.
      * exists (cls last ++ lit " "), []. unfold message.
        now rewrite app_nil_r, <- app_assoc.
Qed.

Lemma exhausted_faults_raise_connection_error_witness :
  let self := new_client 2 None (always reset_fault) in
  let req :=
    {| full_url := lit "https://thunder.api.overdrive.com/v2/media/1234";
       data := None;
       req_headers := default_headers self;
       get_method := lit "GET" |} in
  0 <= max_retries self
  /\ build_request (lib := sample_lib) self (lit "media/1234") None NoParams
       None None true = Ok req
  /\ (forall k, Z.of_nat k <= max_retries self ->
        opener self req k
        = TransportFault (lit "ConnectionResetError") (lit "[Errno 104] reset"))
  /\ exists w,
       plain_get (lib := sample_lib) self (lit "media/1234") initial
       = (Raise (ClientConnectionError
                   (lit "ConnectionResetError [Errno 104] reset")), w)
       /\ trace w = [reset_fault; reset_fault; reset_fault]
       /\ occurs_in (lit "ConnectionResetError")
            (lit "ConnectionResetError [Errno 104] reset")
       /\ occurs_in (lit "[Errno 104] reset")
            (lit "ConnectionResetError [Errno 104] reset").
Proof.
  cbv zeta.
  assert (HN : 0 <= max_retries (new_client 2 None (always reset_fault)))
    by (cbn; lia).
  split; [exact HN|]. split; [reflexivity|].
  split; [intros k _; reflexivity|].
  exact (exhausted_faults_raise_connection_error (lib := sample_lib)
           (new_client 2 None (always reset_fault)) (lit "media/1234")
           None NoParams None None true true _
           (fun _ => lit "ConnectionResetError")
           (fun _ => lit "[Errno 104] reset")
           HN eq_refl (fun k _ => eq_refl)).
Defined.

(** ** The search parameters *)

Lemma get_cond_set {V} (k k' : str) (v : V) (c : bool) (d : dict V) :
  PyStr.eqb k k' = false ->
  Dict.get k (if c then Dict.set k' v d else d) = Dict.get k d.
Proof. intros H. destruct c; [now apply dict_get_set_ne | reflexivity]. Qed.

(** Keys that [to_dict] never sets are absent from its result. *)
Lemma to_dict_other_key (p : LibraryMediaSearchParams) (k : str) :
  forallb (fun k' => negb (PyStr.eqb k k'))
    [lit "page"; lit "perPage"; lit "sortBy"; lit "format";
     lit "showOnlyAvailable"; lit "showOnlyPrerelease"; lit "query";
     lit "title"; lit "creator"; lit "identifier"; lit "titleIds";
     lit "mediaTypes"; lit "subject"] = true ->
  Dict.get k (to_dict p) = None.
Proof.
  intros H. cbn [forallb] in H.
  repeat match type of H with
         | _ && _ = true => apply andb_prop in H; destruct H as [?E H]
         end.
  repeat match goal with
         | E : negb _ = true |- _ => apply negb_true_iff in E
         end.
  unfold to_dict. cbn [fold_left fst snd].
  repeat (rewrite get_cond_set by assumption).
  destruct (show_only_available p); [|destruct (show_only_prelease p)];
    repeat (rewrite dict_get_set_ne by assumption);
    repeat (rewrite get_cond_set by assumption);
    cbn [Dict.get]; now rewrite E, E0.
Qed.

(** C6.  [to_dict] emits [showOnlyAvailable="true"] exactly when
    [show_only_available] is set, and [showOnlyPrerelease="true"] exactly
    when [show_only_available] is not set and [show_only_prelease] is: with
    both flags set only [showOnlyAvailable] is emitted. *)
Theorem available_wins_over_prerelease (p : LibraryMediaSearchParams) :
  Dict.get (lit "showOnlyAvailable") (to_dict p)
  = (if show_only_available p then Some (PStr (lit "true")) else None)
  /\ Dict.get (lit "showOnlyPrerelease") (to_dict p)
     = (if show_only_available p then None
        else if show_only_prelease p then Some (PStr (lit "true"))
        else None).
Proof.
  unfold to_dict. cbn [fold_left fst snd].
  split;
    repeat (rewrite get_cond_set by reflexivity);
    destruct (show_only_available p); [| destruct (show_only_prelease p) | | destruct (show_only_prelease p)];
    repeat (rewrite dict_get_set_ne by reflexivity);
    try rewrite dict_get_set_eq;
    repeat (rewrite get_cond_set by reflexivity);
    reflexivity.
Qed.

(** ** The endpoint helpers *)

Lemma default_query_client_id (self : OverDriveClient) (paging : bool) :
  Dict.get (lit "x-client-id") (default_query self paging)
  = Some (PStr CLIENT_ID).
Proof. destruct paging; reflexivity. Qed.

Lemma update_keeps_key {V} (k : str) (d other : dict V) :
  Dict.wf other ->
  (exists v, Dict.get k d = Some v) ->
  exists v, Dict.get k (Dict.update d other) = Some v.
Proof.
  intros Hwf (v & Hv). rewrite dict_get_update by assumption.
  destruct (Dict.get k other); eauto.
Qed.

Lemma update_kwargs_win (d kwargs : dict pyval) endpoint :
  Dict.wf kwargs ->
  kwargs_win kwargs (get_call endpoint (Dict.update d kwargs)).
Proof.
  intros Hwf k v Hk. cbn. now rewrite dict_get_update, Hk.
Qed.

(** C5.  Each of the eight endpoint helpers hands [send_request] a query
    mapping with an [x-client-id] parameter, and in each helper that
    takes extra keyword arguments a keyword argument is sent with the
    caller's value, also when its key is a default ([x-client-id],
    [page], [perPage]) or one the helper sets ([titleIds], [websiteIds],
    [libraryKey], [query]).  ([library_medias] and the two availability
    helpers take no keyword arguments.) *)
Theorem helpers_send_client_id_and_kwargs_win (self : OverDriveClient)
    (kwargs : dict pyval) (title_id library_key query : str)
    (title_ids library_keys : list str)
    (website_ids : option (list WebsiteId))
    (search : LibraryMediaSearchParams) :
  Dict.wf kwargs ->
  (has_client_id (media_call self title_id kwargs)
   /\ kwargs_win kwargs (media_call self title_id kwargs))
  /\ (has_client_id (media_bulk_call self title_ids kwargs)
      /\ kwargs_win kwargs (media_bulk_call self title_ids kwargs))
  /\ (has_client_id (libraries_call self website_ids kwargs)
      /\ kwargs_win kwargs (libraries_call self website_ids kwargs))
  /\ (has_client_id (library_media_call self library_key title_id kwargs)
      /\ kwargs_win kwargs
           (library_media_call self library_key title_id kwargs))
  /\ (has_client_id (media_search_call self library_keys query kwargs)
      /\ kwargs_win kwargs
           (media_search_call self library_keys query kwargs))
  /\ has_client_id (library_medias_call self library_key search)
  /\ has_client_id (library_media_availability_call self library_key title_id)
  /\ has_client_id
       (library_media_availability_bulk_call self library_key title_ids).
Proof.
  intros Hwf.
  assert (Hbase : forall paging,
            exists v, Dict.get (lit "x-client-id") (default_query self paging)
                      = Some v)
    by (intros paging; rewrite default_query_client_id; eauto).
  repeat split.
  - apply update_keeps_key; [assumption | apply Hbase].
  - now apply update_kwargs_win.
  - apply update_keeps_key; [assumption|].
    apply update_keeps_key; [|apply Hbase].
    repeat constructor. intros [].
  - now apply update_kwargs_win.
  - apply update_keeps_key; [assumption|].
    destruct website_ids as [[|i ids]|]; try apply Hbase.
    exists (PStr CLIENT_ID). reflexivity.
  - now apply update_kwargs_win.
  - apply update_keeps_key; [assumption|].
    apply update_keeps_key; [|apply Hbase].
    repeat constructor. intros [].
  - now apply update_kwargs_win.
  - apply update_keeps_key; [assumption|].
    exists (PStr CLIENT_ID). reflexivity.
  - now apply update_kwargs_win.
  - exists (PStr CLIENT_ID). cbn [sent_query library_medias_call get_call Call.query].
    rewrite dict_get_update_absent; [reflexivity|].
    now apply to_dict_other_key.
  - exists (PStr CLIENT_ID). reflexivity.
  - exists (PStr CLIENT_ID). reflexivity.
Qed.

Example media_bulk_query_with_kwargs :
  sent_query
    (media_bulk_call (new_client 0 None (always (Opened blank_response)))
       [lit "1"; lit "2"] sample_kwargs)
  = [(lit "x-client-id", PStr (lit "other"));
     (lit "titleIds", PStr (lit "999"));
     (lit "perPage", PInt 100)].
Proof. reflexivity. Qed.

Example libraries_query_with_kwargs :
  sent_query
    (libraries_call (new_client 0 None (always (Opened blank_response)))
       (Some [IdInt 42; IdStr (lit "7")]) sample_kwargs)
  = [(lit "x-client-id", PStr (lit "other"));
     (lit "page", PInt 1);
     (lit "perPage", PInt 100);
     (lit "websiteIds", PStr (lit "42,7"));
     (lit "titleIds", PStr (lit "999"))].
Proof. reflexivity. Qed.

Lemma sample_kwargs_wf : Dict.wf sample_kwargs.
Proof.
  repeat constructor; cbn; intuition discriminate.
Defined.

Lemma helpers_send_client_id_and_kwargs_win_witness :
  let self := new_client 0 None (always (Opened blank_response)) in
  Dict.wf sample_kwargs
  /\ Dict.get (lit "x-client-id")
       (sent_query (media_bulk_call self [lit "1"; lit "2"] sample_kwargs))
     = Some (PStr (lit "other"))
  /\ Dict.get (lit "titleIds")
       (sent_query (media_bulk_call self [lit "1"; lit "2"] sample_kwargs))
     = Some (PStr (lit "999")).
Proof.
  cbv zeta.
  pose proof (helpers_send_client_id_and_kwargs_win
                (new_client 0 None (always (Opened blank_response)))
                sample_kwargs (lit "1") (lit "lib") (lit "q")
                [lit "1"; lit "2"] [lit "lib"] None default_search_params
                sample_kwargs_wf) as H.
  destruct H as (_ & (_ & Hwin) & _).
  split; [exact sample_kwargs_wf|].
  split; apply Hwin; reflexivity.
Defined.

(** ** ISBN extraction *)

Lemma first_return_ext {A B} (f g : A -> option B) (l : list A) :
  (forall x, f x = g x) -> first_return f l = first_return g l.
Proof.
  intros H. induction l as [|x l IH]; simpl; [reflexivity|].
  now rewrite H, IH.
Qed.

Lemma mem_In (s : str) (l : list str) : In s l -> mem s l = true.
Proof.
  intros H. unfold mem. apply existsb_exists. exists s.
  split; [exact H | apply str_eqb_refl].
Qed.

Lemma extract_isbn_among_all_ids (formats : list MediaFormat.t) :
  extract_isbn_among formats (List.map MediaFormat.id formats)
  = extract_isbn_unrestricted formats.
Proof.
  assert (Hmem : forall f, In f formats ->
            mem (MediaFormat.id f) (List.map MediaFormat.id formats) = true)
    by (intros f Hf; apply mem_In; now apply in_map).
  unfold extract_isbn_among, extract_isbn_unrestricted.
  rewrite (filter_ext_in
             (fun f => has_isbn f
                       && mem (MediaFormat.id f)
                            (List.map MediaFormat.id formats))
             has_isbn)
    by (intros f Hf; rewrite (Hmem f Hf); apply andb_true_r).
  destruct (truthy _); [reflexivity|].
  erewrite first_return_ext; [reflexivity|].
  intros isbn_type. cbv beta. f_equal.
  apply filter_ext_in. intros f Hf. now rewrite (Hmem f Hf).
Qed.

(** C9.  With an empty allow-list [extract_isbn] returns what it returns
    when the allow-list holds the id of every format of the list, and
    that is the result of the scan in which no format is left out of the
    direct check of the [isbn] field or of the identifier scan.  (It
    holds for the empty list of formats as well.) *)
Theorem empty_allow_list_admits_every_format (formats : list MediaFormat.t) :
  extract_isbn formats []
  = extract_isbn formats (List.map MediaFormat.id formats)
  /\ extract_isbn formats [] = extract_isbn_unrestricted formats.
Proof.
  split.
  - destruct formats; reflexivity.
  - unfold extract_isbn. cbn [nonempty negb].
    apply extract_isbn_among_all_ids.
Qed.

(** ** The availability comparator *)

Lemma float_lt_asym (x y : pyfloat) :
  float_lt x y = true -> float_lt y x = false.
Proof.
  destruct x as [p|[|]|], y as [q|[|]|]; cbn; try congruence.
  rewrite <- (Qcompare_antisym p q).
  destruct (Qcompare p q); cbn; congruence.
Qed.

Lemma compare_by_antisym rows (a b : dict number) :
  compare_by rows a b = - compare_by rows b a.
Proof.
  induction rows as [|[[key default] fn] rows IH]; cbn [compare_by].
  - reflexivity.
  - unfold number_gt, number_lt.
    match goal with
    | |- context [float_lt ?x ?y] =>
      destruct (float_lt x y) eqn:E1; destruct (float_lt y x) eqn:E2
    end; try reflexivity; [|exact IH].
    apply float_lt_asym in E1. congruence.
Qed.

(** The first key decides when one record is available and the other is
    not. *)
Lemma available_compares_greater (a b : dict number) :
  Dict.get (lit "isAvailable") a = Some (NBool true) ->
  Dict.get (lit "isAvailable") b = Some (NBool false) ->
  sort_availabilities a b = 1.
Proof.
  intros Ha Hb. unfold sort_availabilities, availability_keys.
  cbn [compare_by]. unfold Dict.get_default. now rewrite Ha, Hb.
Qed.

(** C7, as stated, fails: for the two records of the claim the comparator
    returns 1, so it does not order the available record ahead of the
    other, and a sort by it puts the available record last. *)
Lemma available_record_not_ordered_ahead :
  sort_availabilities available_one_copy unavailable_hundred_copies = 1
  /\ ~ orders_ahead sort_availabilities
         available_one_copy unavailable_hundred_copies
  /\ sorted_by sort_availabilities false
       [available_one_copy; unavailable_hundred_copies]
     = [unavailable_hundred_copies; available_one_copy].
Proof.
  split; [reflexivity|]. split; [|reflexivity].
  unfold orders_ahead. vm_compute. discriminate.
Qed.

(** C7, amended.  For a record [a] with [isAvailable=true] and
    [ownedCopies=1] and a record [b] with [isAvailable=false] and
    [ownedCopies=100], none of the other compared keys being set, the
    comparator returns 1 for [(a, b)] and -1 for [(b, a)]: [a] compares
    greater, so a sort by the comparator puts [a] after [b], and [a]
    comes first only in a reversed (descending) sort. *)
Theorem available_record_compares_greater (a b : dict number) :
  Dict.get (lit "isAvailable") a = Some (NBool true) ->
  Dict.get (lit "ownedCopies") a = Some (NInt 1) ->
  Dict.get (lit "isAvailable") b = Some (NBool false) ->
  Dict.get (lit "ownedCopies") b = Some (NInt 100) ->
  (forall k,
     In k [lit "luckyDayAvailableCopies"; lit "estimatedWaitDays";
           lit "holdsRatio"] ->
     Dict.get k a = None /\ Dict.get k b = None) ->
  sort_availabilities a b = 1
  /\ sort_availabilities b a = -1
  /\ sorted_by sort_availabilities false [a; b] = [b; a]
  /\ sorted_by sort_availabilities true [b; a] = [a; b].
Proof.
  intros Ha _ Hb _ _.
  pose proof (available_compares_greater a b Ha Hb) as Hab.
  assert (Hba : sort_availabilities b a = -1).
  { unfold sort_availabilities in *. rewrite compare_by_antisym, Hab.
    reflexivity. }
  split; [exact Hab|]. split; [exact Hba|].
  unfold sorted_by. cbn [rev app fold_right insert_sorted].
  rewrite Hba. split; reflexivity.
Qed.

Lemma available_record_compares_greater_witness :
  Dict.get (lit "isAvailable") available_one_copy = Some (NBool true)
  /\ Dict.get (lit "ownedCopies") available_one_copy = Some (NInt 1)
  /\ Dict.get (lit "isAvailable") unavailable_hundred_copies
     = Some (NBool false)
  /\ Dict.get (lit "ownedCopies") unavailable_hundred_copies
     = Some (NInt 100)
  /\ sort_availabilities available_one_copy unavailable_hundred_copies = 1
  /\ sort_availabilities unavailable_hundred_copies available_one_copy = -1
  /\ sorted_by sort_availabilities false
       [available_one_copy; unavailable_hundred_copies]
     = [unavailable_hundred_copies; available_one_copy]
  /\ sorted_by sort_availabilities true
       [unavailable_hundred_copies; available_one_copy]
     = [available_one_copy; unavailable_hundred_copies].
Proof.
  do 4 (split; [reflexivity|]).
  refine (available_record_compares_greater
            available_one_copy unavailable_hundred_copies
            eq_refl eq_refl eq_refl eq_refl _).
  intros k Hk. cbn in Hk.
  destruct Hk as [<-|[<-|[<-|[]]]]; split; reflexivity.
Defined.

(** C10.  The comparator is antisymmetric, and it returns 0 on a record
    compared with itself: for all availability records [a] and [b]
    (whatever keys they hold, the compared values being booleans,
    integers or floats, NaN and the infinities included),
    [sort_availabilities(a, b) = -sort_availabilities(b, a)] and
    [sort_availabilities(a, a) = 0]. *)
Theorem sort_availabilities_antisymmetric (a b : dict number) :
  sort_availabilities a b = - sort_availabilities b a
  /\ sort_availabilities a a = 0.
Proof.
  unfold sort_availabilities. split.
  - apply compare_by_antisym.
  - pose proof (compare_by_antisym availability_keys a a). lia.
Qed.

(* ================================================================== *)
(** * Further properties *)

(** ** More on the attempt loop *)

Section LoopMore.

Context {lib : PyLib}.
Variable self : OverDriveClient.
Variable req : Request.
Variable decode_response : bool.


(** After [m] turns that ask for a retry and one that stops without a
    warning, [m] warnings were logged. *)
Lemma attempts_run_warnings (remaining : nat) :
  forall attempt w m r,
    (m < remaining)%nat ->
    (forall k, (k < m)%nat ->
       exists cls msg,
         verdict_at self req decode_response attempt
           (List.length (trace w)) k = Retry cls msg) ->
    verdict_at self req decode_response attempt (List.length (trace w)) m
    = Stop None r ->
    List.length
      (warnings (snd (attempts self req decode_response attempt remaining w)))
    = (List.length (warnings w) + m)%nat.
Proof.
  induction remaining as [|n IH]; intros attempt w m r Hm Hretry Hstop;
    [lia|].
  rewrite attempts_step. cbv zeta.
  destruct m as [|m].
  - unfold verdict_at in Hstop. rewrite Z.add_0_r, Nat.add_0_r in Hstop.
    rewrite Hstop. cbn. lia.
  - destruct (Hretry 0%nat ltac:(lia)) as (cls & msg & H0).
    unfold verdict_at in H0. rewrite Z.add_0_r, Nat.add_0_r in H0.
    rewrite H0.
    set (w2 := after w _ _).
    assert (Hlen : List.length (trace w2) = S (List.length (trace w))).
    { unfold w2. rewrite trace_after, length_app. cbn. lia. }
    assert (Hwarn : List.length (warnings w2) = S (List.length (warnings w))).
    { unfold w2. cbn. rewrite length_app. cbn. lia. }
    rewrite (IH (attempt + 1) w2 m r).
    + lia.
    + lia.
    + intros k Hk. destruct (Hretry (S k) ltac:(lia)) as (c & g & Hv).
      exists c, g. unfold verdict_at in *. rewrite Hlen.
      replace (attempt + 1 + Z.of_nat k) with (attempt + Z.of_nat (S k)) by lia.
      replace (S (List.length (trace w)) + k)%nat
        with (List.length (trace w) + S k)%nat by lia.
      exact Hv.
    + unfold verdict_at in *. rewrite Hlen.
      replace (attempt + 1 + Z.of_nat m) with (attempt + Z.of_nat (S m)) by lia.
      replace (S (List.length (trace w)) + m)%nat
        with (List.length (trace w) + S m)%nat by lia.
      exact Hstop.
Qed.

End LoopMore.


(** X2.  With a negative [max_retries] the loop body never runs: a call
    whose request is built sends nothing, logs nothing and returns
    [None]. *)
Theorem negative_budget_sends_nothing {lib : PyLib}
    (self : OverDriveClient) endpoint query params method headers is_form
    decode_response req :
  max_retries self < 0 ->
  build_request self endpoint query params method headers is_form = Ok req ->
  send_request self endpoint query params method headers is_form
    decode_response initial
  = (Ok PNone, initial).
Proof.
  intros HN Hbuild. rewrite send_request_unfold, Hbuild.
  replace (Z.to_nat (max_retries self + 1)) with 0%nat by lia.
  reflexivity.
Qed.

Lemma negative_budget_sends_nothing_witness :
  let self := new_client (-3) None (always (Opened blank_response)) in
  max_retries self < 0
  /\ plain_get (lib := sample_lib) self (lit "media/1234") initial
     = (Ok PNone, initial).
Proof.
  cbv zeta.
  assert (HN : max_retries
                 (new_client (-3) None (always (Opened blank_response))) < 0)
    by (cbn; lia).
  split; [exact HN|].
  exact (negative_budget_sends_nothing (lib := sample_lib)
           (new_client (-3) None (always (Opened blank_response)))
           (lit "media/1234") None NoParams None None true true _
           HN eq_refl).
Defined.

(** A turn of a call whose verdict is to stop is its last turn. *)
Lemma send_request_stops {lib : PyLib}
    (self : OverDriveClient) endpoint query params method headers is_form
    decode_response r w (i : nat) o warned r0 :
  send_request self endpoint query params method headers is_form
    decode_response initial = (r, w) ->
  nth_error (trace w) i = Some o ->
  judge self decode_response (Z.of_nat i) o = Stop warned r0 ->
  r = r0 /\ List.length (trace w) = S i.
Proof.
  intros Hrun Hnth Hj.
  destruct (send_request_trace_built _ _ _ _ _ _ _ _ _ _ _ Hrun
              (nth_error_In _ _ Hnth)) as (req & _ & Hloop).
  apply (attempts_stop_is_last self req decode_response _ _ _ _ _ i
           o warned _ Hloop).
  - cbn. lia.
  - exact Hnth.
  - cbn [trace initial List.length]. rewrite Nat.sub_0_r, Z.add_0_l.
    exact Hj.
Qed.

(** X3.  The first response that is opened ends the call: no attempt
    follows it, and the call returns or raises what decoding that
    response gives.  A body that fails to inflate, to decode or to parse
    as JSON is therefore never retried. *)
Theorem opened_response_ends_the_call {lib : PyLib}
    (self : OverDriveClient) endpoint query params method headers is_form
    decode_response r w (i : nat) response :
  send_request self endpoint query params method headers is_form
    decode_response initial = (r, w) ->
  nth_error (trace w) i = Some (Opened response) ->
  r = handle_response response decode_response
  /\ List.length (trace w) = S i.
Proof.
  intros Hrun Hnth.
  exact (send_request_stops self endpoint query params method headers
           is_form decode_response r w i (Opened response) None _
           Hrun Hnth eq_refl).
Qed.

Lemma opened_response_ends_the_call_witness :
  let self :=
    new_client 2 None
      (scripted reset_fault [Opened plain_ok; Opened blank_response]) in
  let w := {| trace := [reset_fault; Opened plain_ok];
              warnings :=
                [lit "Retrying due to ConnectionResetError: [Errno 104] reset"] |} in
  plain_get (lib := sample_lib) self (lit "media/1234") initial
  = (Ok (PStr (lit "ok")), w)
  /\ nth_error (trace w) 1 = Some (Opened plain_ok)
  /\ Ok (PStr (lit "ok")) = handle_response (lib := sample_lib) plain_ok true
  /\ List.length (trace w) = 2%nat.
Proof.
  cbv zeta.
  assert (Hrun :
    send_request (lib := sample_lib)
      (new_client 2 None
         (scripted reset_fault [Opened plain_ok; Opened blank_response]))
      (lit "media/1234") None NoParams None None true true initial
    = (Ok (PStr (lit "ok")),
       {| trace := [reset_fault; Opened plain_ok];
          warnings :=
            [lit "Retrying due to ConnectionResetError: [Errno 104] reset"] |}))
    by reflexivity.
  split; [exact Hrun|]. split; [reflexivity|].
  exact (opened_response_ends_the_call (lib := sample_lib) _ _ _ _ _ _ _ _ _
           _ 1%nat _ Hrun eq_refl).
Defined.

(** X4.  In raw mode ([decode_response] false) a response that does not
    declare gzip is returned as its body bytes, untouched: no UTF-8
    decoding, no look at the content type, no JSON parsing. *)
Theorem raw_mode_returns_body_bytes {lib : PyLib}
    (self : OverDriveClient) endpoint query params method headers is_form
    r w response :
  send_request self endpoint query params method headers is_form false
    initial = (r, w) ->
  In (Opened response) (trace w) ->
  declares_gzip response = false ->
  r = Ok (PBytes (body response)).
Proof.
  intros Hrun Hin Hgzip.
  destruct (In_nth_error _ _ Hin) as (i & Hnth).
  destruct (send_request_stops self endpoint query params method headers
              is_form false r w i (Opened response) None _
              Hrun Hnth eq_refl) as [-> _].
  unfold handle_response, _read_response. cbn [negb].
  now rewrite Hgzip.
Qed.

Lemma raw_mode_returns_body_bytes_witness :
  let self := new_client 0 None (always (Opened untyped_latin1)) in
  let w := {| trace := [Opened untyped_latin1]; warnings := [] |} in
  send_request (lib := sample_lib) self (lit "media/1234") None NoParams
    None None true false initial
  = (Ok (PBytes latin1_cafe), w)
  /\ In (Opened untyped_latin1) (trace w)
  /\ declares_gzip untyped_latin1 = false
  /\ Ok (PBytes latin1_cafe) = Ok (PBytes (body untyped_latin1)).
Proof.
  cbv zeta.
  assert (Hrun :
    send_request (lib := sample_lib)
      (new_client 0 None (always (Opened untyped_latin1)))
      (lit "media/1234") None NoParams None None true false initial
    = (Ok (PBytes latin1_cafe),
       {| trace := [Opened untyped_latin1]; warnings := [] |}))
    by reflexivity.
  assert (Hin : In (Opened untyped_latin1)
                  (trace {| trace := [Opened untyped_latin1];
                            warnings := [] |}))
    by (left; reflexivity).
  split; [exact Hrun|]. split; [exact Hin|]. split; [reflexivity|].
  exact (raw_mode_returns_body_bytes (lib := sample_lib) _ _ _ _ _ _ _ _ _ _
           Hrun Hin eq_refl).
Defined.

(** X5.  In decode mode a response that declares no content type and
    whose body reads as text that is not blank makes the call raise
    [AttributeError]: the content type is looked up, found absent, and
    asked for its prefix. *)
Theorem missing_content_type_raises {lib : PyLib}
    (self : OverDriveClient) endpoint query params method headers is_form
    r w response text :
  send_request self endpoint query params method headers is_form true
    initial = (r, w) ->
  In (Opened response) (trace w) ->
  content_type response = None ->
  _read_response response true = Ok text ->
  forallb isspace text = false ->
  r = Raise AttributeError.
Proof.
  intros Hrun Hin Htype Hread Hblank.
  destruct (In_nth_error _ _ Hin) as (i & Hnth).
  destruct (send_request_stops self endpoint query params method headers
              is_form true r w i (Opened response) None _
              Hrun Hnth eq_refl) as [-> _].
  unfold handle_response. cbn [negb]. rewrite Hread. cbn [res_bind].
  destruct (strip text) as [|c s] eqn:Es.
  - apply strip_nil_iff in Es. congruence.
  - cbn [truthy negb]. now rewrite Htype.
Qed.

Lemma missing_content_type_raises_witness :
  let self := new_client 0 None (always (Opened untyped_text)) in
  let w := {| trace := [Opened untyped_text]; warnings := [] |} in
  plain_get (lib := sample_lib) self (lit "media/1234") initial
  = (Raise AttributeError, w)
  /\ In (Opened untyped_text) (trace w)
  /\ content_type untyped_text = None
  /\ _read_response (lib := sample_lib) untyped_text true = Ok (lit "ok")
  /\ forallb isspace (lit "ok") = false.
Proof.
  cbv zeta.
  assert (Hrun :
    send_request (lib := sample_lib)
      (new_client 0 None (always (Opened untyped_text)))
      (lit "media/1234") None NoParams None None true true initial
    = (Raise AttributeError,
       {| trace := [Opened untyped_text]; warnings := [] |}))
    by reflexivity.
  assert (Hin : In (Opened untyped_text)
                  (trace {| trace := [Opened untyped_text];
                            warnings := [] |}))
    by (left; reflexivity).
  split; [exact Hrun|]. split; [exact Hin|]. split; [reflexivity|].
  split; [reflexivity|].
  pose proof (missing_content_type_raises (lib := sample_lib) _ _ _ _ _ _ _
                _ _ _ (lit "ok") Hrun Hin eq_refl eq_refl eq_refl) as H.
  reflexivity.
Defined.

(** X6.  An exception of the transport that is neither an [HTTPError] nor
    one of the caught transport classes leaves the call at once, with
    attempts remaining or not: it is the last outcome of the trace and
    the call raises it. *)
Theorem unexpected_exception_is_not_retried {lib : PyLib}
    (self : OverDriveClient) endpoint query params method headers is_form
    decode_response r w (i : nat) cls msg :
  send_request self endpoint query params method headers is_form
    decode_response initial = (r, w) ->
  nth_error (trace w) i = Some (OtherException cls msg) ->
  r = Raise (LibraryError cls msg) /\ List.length (trace w) = S i.
Proof.
  intros Hrun Hnth.
  exact (send_request_stops self endpoint query params method headers
           is_form decode_response r w i (OtherException cls msg) None _
           Hrun Hnth eq_refl).
Qed.

Lemma unexpected_exception_is_not_retried_witness :
  let self := new_client 5 None (always value_error) in
  let w := {| trace := [value_error]; warnings := [] |} in
  plain_get (lib := sample_lib) self (lit "media/1234") initial
  = (Raise (LibraryError (lit "ValueError") (lit "unknown url type")), w)
  /\ nth_error (trace w) 0 = Some value_error
  /\ List.length (trace w) = 1%nat.
Proof.
  cbv zeta.
  assert (Hrun :
    send_request (lib := sample_lib) (new_client 5 None (always value_error))
      (lit "media/1234") None NoParams None None true true initial
    = (Raise (LibraryError (lit "ValueError") (lit "unknown url type")),
       {| trace := [value_error]; warnings := [] |}))
    by reflexivity.
  split; [exact Hrun|]. split; [reflexivity|].
  exact (proj2 (unexpected_exception_is_not_retried (lib := sample_lib)
                  _ _ _ _ _ _ _ _ _ _ 0%nat _ _ Hrun eq_refl)).
Defined.

(** X7.  Retries are transparent: when the first [m] attempts end in
    retryable outcomes, [m] being within the budget, and attempt [m] is
    opened, the call returns what decoding that response gives, after
    [m + 1] attempts and [m] warnings. *)
Theorem retries_are_transparent {lib : PyLib}
    (self : OverDriveClient) endpoint query params method headers is_form
    decode_response req (m : nat) response :
  build_request self endpoint query params method headers is_form = Ok req ->
  Z.of_nat m <= max_retries self ->
  (forall k, (k < m)%nat -> retryable (opener self req k)) ->
  opener self req m = Opened response ->
  exists w,
    send_request self endpoint query params method headers is_form
      decode_response initial
    = (handle_response response decode_response, w)
    /\ trace w = List.map (opener self req) (seq 0 (S m))
    /\ List.length (warnings w) = m.
Proof.
  intros Hbuild Hm Hretry Hopen.
  rewrite send_request_unfold, Hbuild.
  assert (Hverdicts : forall k, (k < m)%nat ->
            exists cls msg,
              verdict_at self req decode_response 0
                (List.length (trace initial)) k = Retry cls msg).
  { intros k Hk. specialize (Hretry k Hk).
    unfold verdict_at, judge. cbn [trace initial List.length Nat.add].
    destruct (opener self req k) as [resp|reason e|cls msg|cls msg];
      cbn in Hretry; try contradiction.
    - destruct Hretry as (Hcode & text & Hread).
      replace (0 + Z.of_nat k <? max_retries self) with true
        by (symmetry; apply Z.ltb_lt; lia).
      replace (500 <=? code e) with true by (symmetry; apply Z.leb_le; lia).
      cbn. rewrite Hread. eauto.
    - replace (0 + Z.of_nat k <? max_retries self) with true
        by (symmetry; apply Z.ltb_lt; lia).
      eauto. }
  assert (Hstop : verdict_at self req decode_response 0
                    (List.length (trace initial)) m
                  = Stop None (handle_response response decode_response)).
  { unfold verdict_at, judge. cbn [trace initial List.length Nat.add].
    now rewrite Hopen. }
  destruct (attempts_run self req decode_response
              (Z.to_nat (max_retries self + 1)) 0 initial m None _
              ltac:(lia) Hverdicts Hstop) as (w & Hrun & Htrace).
  exists w. split; [exact Hrun|]. split; [exact Htrace|].
  pose proof (attempts_run_warnings self req decode_response
                (Z.to_nat (max_retries self + 1)) 0 initial m _
                ltac:(lia) Hverdicts Hstop) as Hw.
  rewrite Hrun in Hw. exact Hw.
Qed.

Lemma retries_are_transparent_witness :
  let self :=
    new_client 2 None (scripted reset_fault [unavailable_empty; Opened plain_ok]) in
  let req :=
    {| full_url := lit "https://thunder.api.overdrive.com/v2/media/1234";
       data := None;
       req_headers := default_headers self;
       get_method := lit "GET" |} in
  build_request (lib := sample_lib) self (lit "media/1234") None NoParams
    None None true = Ok req
  /\ Z.of_nat 2 <= max_retries self
  /\ retryable (lib := sample_lib) (opener self req 0)
  /\ retryable (lib := sample_lib) (opener self req 1)
  /\ opener self req 2 = Opened plain_ok
  /\ exists w,
       plain_get (lib := sample_lib) self (lit "media/1234") initial
       = (Ok (PStr (lit "ok")), w)
       /\ trace w = [reset_fault; unavailable_empty; Opened plain_ok]
       /\ List.length (warnings w) = 2%nat.
Proof.
  cbv zeta.
  assert (H0 : retryable (lib := sample_lib) reset_fault) by exact I.
  assert (H1 : retryable (lib := sample_lib) unavailable_empty).
  { split; [cbn; lia | exists []; reflexivity]. }
  split; [reflexivity|]. split; [cbn; lia|].
  split; [exact H0|]. split; [exact H1|]. split; [reflexivity|].
  refine (retries_are_transparent (lib := sample_lib)
            (new_client 2 None
               (scripted reset_fault [unavailable_empty; Opened plain_ok]))
            (lit "media/1234") None NoParams None None true true _ 2%nat
            plain_ok eq_refl _ _ eq_refl).
  - cbn. lia.
  - intros k Hk.
    destruct k as [|[|k]]; [exact H0 | exact H1 | lia].
Defined.


(** X9.  When the retry budget runs out the last attempt decides the
    call: after [max_retries] attempts that ended in retryable outcomes
    (transport faults and readable server errors, in any mix), the
    outcome of attempt [max_retries] is never retried; an HTTP error is
    raised as it is, a transport fault as [ClientConnectionError], and a
    response is decoded and returned. *)
Theorem exhausted_budget_ends_on_last_attempt {lib : PyLib}
    (self : OverDriveClient) endpoint query params method headers is_form
    decode_response req :
  0 <= max_retries self ->
  build_request self endpoint query params method headers is_form = Ok req ->
  (forall k, Z.of_nat k < max_retries self ->
     retryable (opener self req k)) ->
  let last := Z.to_nat (max_retries self) in
  exists w,
    send_request self endpoint query params method headers is_form
      decode_response initial
    = (last_attempt_result decode_response (opener self req last), w)
    /\ trace w = List.map (opener self req) (seq 0 (S last))
    /\ List.length (warnings w) = last.
Proof.
  intros HN Hbuild Hretry last.
  rewrite send_request_unfold, Hbuild.
  assert (Hverdicts : forall k, (k < last)%nat ->
            exists cls msg,
              verdict_at self req decode_response 0
                (List.length (trace initial)) k = Retry cls msg).
  { intros k Hk. specialize (Hretry k ltac:(unfold last in Hk; lia)).
    unfold verdict_at, judge. cbn [trace initial List.length Nat.add].
    destruct (opener self req k) as [resp|reason e|cls msg|cls msg];
      cbn in Hretry; try contradiction.
    - destruct Hretry as (Hcode & text & Hread).
      replace (0 + Z.of_nat k <? max_retries self) with true
        by (symmetry; apply Z.ltb_lt; unfold last in Hk; lia).
      replace (500 <=? code e) with true by (symmetry; apply Z.leb_le; lia).
      cbn. rewrite Hread. eauto.
    - replace (0 + Z.of_nat k <? max_retries self) with true
        by (symmetry; apply Z.ltb_lt; unfold last in Hk; lia).
      eauto. }
  assert (Hstop : verdict_at self req decode_response 0
                    (List.length (trace initial)) last
                  = Stop None
                      (last_attempt_result decode_response
                         (opener self req last))).
  { unfold verdict_at, judge, last_attempt_result.
    cbn [trace initial List.length Nat.add].
    replace (0 + Z.of_nat last <? max_retries self) with false
      by (symmetry; apply Z.ltb_ge; unfold last; lia).
    destruct (opener self req last); reflexivity. }
  destruct (attempts_run self req decode_response
              (Z.to_nat (max_retries self + 1)) 0 initial last None _
              ltac:(unfold last; lia) Hverdicts Hstop)
    as (w & Hrun & Htrace).
  exists w. split; [exact Hrun|]. split; [exact Htrace|].
  pose proof (attempts_run_warnings self req decode_response
                (Z.to_nat (max_retries self + 1)) 0 initial last _
                ltac:(unfold last; lia) Hverdicts Hstop) as Hw.
  rewrite Hrun in Hw. exact Hw.
Qed.

Lemma exhausted_budget_ends_on_last_attempt_witness :
  let self :=
    new_client 2 None
      (scripted reset_fault [unavailable_empty; not_found_failure]) in
  let req :=
    {| full_url := lit "https://thunder.api.overdrive.com/v2/media/1234";
       data := None;
       req_headers := default_headers self;
       get_method := lit "GET" |} in
  0 <= max_retries self
  /\ build_request (lib := sample_lib) self (lit "media/1234") None NoParams
       None None true = Ok req
  /\ retryable (lib := sample_lib) (opener self req 0)
  /\ retryable (lib := sample_lib) (opener self req 1)
  /\ exists w,
       plain_get (lib := sample_lib) self (lit "media/1234") initial
       = (Raise (HTTPError (lit "Not Found") not_found), w)
       /\ trace w = [reset_fault; unavailable_empty; not_found_failure]
       /\ List.length (warnings w) = 2%nat.
Proof.
  cbv zeta.
  assert (H0 : retryable (lib := sample_lib) reset_fault) by exact I.
  assert (H1 : retryable (lib := sample_lib) unavailable_empty).
  { split; [cbn; lia | exists []; reflexivity]. }
  assert (HN : 0 <= max_retries
                      (new_client 2 None
                         (scripted reset_fault
                            [unavailable_empty; not_found_failure])))
    by (cbn; lia).
  split; [exact HN|]. split; [reflexivity|].
  split; [exact H0|]. split; [exact H1|].
  refine (exhausted_budget_ends_on_last_attempt (lib := sample_lib)
            (new_client 2 None
               (scripted reset_fault [unavailable_empty; not_found_failure]))
            (lit "media/1234") None NoParams None None true true _
            HN eq_refl _).
  intros k Hk. cbn in Hk.
  destruct k as [|[|k]]; [exact H0 | exact H1 | lia].
Defined.

(** ** Building the request *)

(** The headers a request starts from: the caller's, or the defaults. *)
Lemma build_request_inv {lib : PyLib} (self : OverDriveClient) endpoint
    query params method headers is_form req :
  build_request self endpoint query params method headers is_form = Ok req ->
  let given :=
    match headers with
    | None => default_headers self
    | Some h => h
    end in
  let content_type :=
    if is_form
    then lit "application/x-www-form-urlencoded"
    else lit "application/json; charset=UTF-8" in
  if has_body params
  then exists payload,
         encode_body params is_form = Ok payload
         /\ data req = Some payload
         /\ req_headers req = Dict.set (lit "Content-Type") content_type given
  else data req = None /\ req_headers req = given.
Proof.
  unfold build_request.
  destruct (urljoin (api_base self) endpoint) as [u|]; cbn [res_bind];
    [|discriminate].
  match goal with
  | |- context [res_bind ?x _] => destruct x as [u'|]; cbn [res_bind];
                                  [|discriminate]
  end.
  destruct (has_body params).
  - destruct (encode_body params is_form) as [payload|]; cbn [res_bind];
      [|discriminate].
    intros H. inversion H. cbn. eauto.
  - cbn [res_bind]. intros H. inversion H. cbn. auto.
Qed.





(** X12.  When the caller gives no headers, every request that is built
    carries the six fixed headers with their values ([User-Agent] being
    the client's user agent), with a body or without. *)
Theorem default_headers_are_sent {lib : PyLib}
    (self : OverDriveClient) endpoint query params method is_form req :
  build_request self endpoint query params method None is_form = Ok req ->
  Dict.get (lit "User-Agent") (req_headers req) = Some (user_agent self)
  /\ Dict.get (lit "Referer") (req_headers req) = Some (lit "https://libbyapp.com/")
  /\ Dict.get (lit "Origin") (req_headers req) = Some (lit "https://libbyapp.com")
  /\ Dict.get (lit "Accept-Encoding") (req_headers req) = Some (lit "gzip")
  /\ Dict.get (lit "Cache-Control") (req_headers req) = Some (lit "no-cache")
  /\ Dict.get (lit "Pragma") (req_headers req) = Some (lit "no-cache").
Proof.
  intros Hbuild.
  pose proof (build_request_inv _ _ _ _ _ _ _ _ Hbuild) as Hinv.
  cbv zeta in Hinv.
  destruct (has_body params).
  - destruct Hinv as (payload & _ & _ & ->).
    repeat split; rewrite dict_get_set_ne by reflexivity; reflexivity.
  - destruct Hinv as [_ ->]. repeat split; reflexivity.
Qed.

Lemma default_headers_are_sent_witness :
  let self := new_client 0 (Some (lit "calibre")) (always (Opened blank_response)) in
  let req :=
    {| full_url := lit "https://thunder.api.overdrive.com/v2/media/1234";
       data := None;
       req_headers := default_headers self;
       get_method := lit "GET" |} in
  build_request (lib := sample_lib) self (lit "media/1234") None NoParams
    None None true = Ok req
  /\ Dict.get (lit "User-Agent") (req_headers req) = Some (lit "calibre").
Proof.
  cbv zeta.
  assert (Hbuild :
    build_request (lib := sample_lib)
      (new_client 0 (Some (lit "calibre")) (always (Opened blank_response)))
      (lit "media/1234") None NoParams None None true
    = Ok {| full_url := lit "https://thunder.api.overdrive.com/v2/media/1234";
            data := None;
            req_headers :=
              default_headers
                (new_client 0 (Some (lit "calibre"))
                   (always (Opened blank_response)));
            get_method := lit "GET" |})
    by reflexivity.
  split; [exact Hbuild|].
  exact (proj1 (default_headers_are_sent (lib := sample_lib) _ _ _ _ _ _ _
                  Hbuild)).
Defined.

(** ** Helpers and the engine together *)

Lemma set_nonempty {V} (k : str) (v : V) (d : dict V) :
  nonempty (Dict.set k v d) = true.
Proof.
  destruct d as [|[k0 v0] d]; cbn; [reflexivity|].
  destruct (PyStr.eqb k k0); reflexivity.
Qed.

Lemma update_nonempty {V} (d other : dict V) :
  nonempty d = true -> nonempty (Dict.update d other) = true.
Proof.
  unfold Dict.update. revert d.
  induction other as [|[k v] other IH]; intros d H; cbn; [exact H|].
  apply IH. apply set_nonempty.
Qed.

(** The URL of a request that was built: the endpoint joined to the base,
    followed by the encoded query when there is one. *)
Lemma build_request_url {lib : PyLib} (self : OverDriveClient) endpoint
    query params method headers is_form req :
  build_request self endpoint query params method headers is_form = Ok req ->
  exists joined,
    urljoin (api_base self) endpoint = Ok joined
    /\ if nonempty (sent_query_of query)
       then exists encoded,
              urlencode (sent_query_of query) true = Ok encoded
              /\ full_url req
                 = joined
                   ++ (if negb (contains_char 63%N endpoint)
                       then lit "?" else lit "&")
                   ++ encoded
       else full_url req = joined.
Proof.
  unfold build_request.
  assert (Hq : match query with
               | Some q => if nonempty q then q else []
               | None => []
               end = sent_query_of query).
  { unfold sent_query_of. destruct query as [[|kv q]|]; reflexivity. }
  rewrite Hq. clear Hq.
  destruct (urljoin (api_base self) endpoint) as [joined|]; cbn [res_bind];
    [|discriminate].
  destruct (nonempty (sent_query_of query)).
  - destruct (urlencode (sent_query_of query) true) as [encoded|];
      cbn [res_bind]; [|discriminate].
    match goal with
    | |- context [res_bind ?x _] => destruct x as [bh|]; cbn [res_bind];
                                    [|discriminate]
    end.
    intros H. inversion H. cbn. eauto.
  - cbn [res_bind].
    match goal with
    | |- context [res_bind ?x _] => destruct x as [bh|]; cbn [res_bind];
                                    [|discriminate]
    end.
    intros H. inversion H. cbn. eauto.
Qed.

(** What [send_request(endpoint, query=q)] builds for a query that is not
    empty. *)
Lemma build_get_call {lib : PyLib} (self : OverDriveClient) endpoint q req :
  nonempty q = true ->
  build_call self (get_call endpoint q) = Ok req ->
  get_method req = lit "GET"
  /\ data req = None
  /\ req_headers req = default_headers self
  /\ exists joined encoded,
       urljoin (api_base self) endpoint = Ok joined
       /\ urlencode q true = Ok encoded
       /\ full_url req
          = joined
            ++ (if contains_char 63%N endpoint then lit "&" else lit "?")
            ++ encoded.
Proof.
  unfold build_call, get_call. cbn [Call.endpoint Call.query
    Call.params Call.method Call.headers Call.is_form].
  intros Hq Hbuild.
  pose proof (build_request_method _ _ _ _ _ _ _ _ Hbuild) as Hmethod.
  pose proof (build_request_inv _ _ _ _ _ _ _ _ Hbuild) as Hinv.
  pose proof (build_request_url _ _ _ _ _ _ _ _ Hbuild) as Hurl.
  cbv zeta in Hinv. cbn [has_body] in Hinv. destruct Hinv as [Hdata Hhdr].
  cbn in Hmethod. rewrite upper_of_ascii in Hmethod by reflexivity.
  split; [exact Hmethod|]. split; [exact Hdata|]. split; [exact Hhdr|].
  destruct Hurl as (joined & Hjoin & Hfull). cbn [sent_query_of] in Hfull.
  unfold sent_query_of in Hfull. rewrite Hq in Hfull.
  destruct Hfull as (encoded & Henc & Hfull).
  exists joined, encoded. split; [exact Hjoin|]. split; [exact Henc|].
  rewrite Hfull. destruct (contains_char 63%N endpoint); reflexivity.
Qed.

(** X13.  Each of the seven lookup helpers sends a GET request: no body,
    the default headers, and a URL that is the endpoint joined to the
    base followed by the encoded query, which is never empty; the
    separator is [?] unless the endpoint holds one already. *)
Theorem lookup_helpers_send_get_requests {lib : PyLib}
    (self : OverDriveClient) (kwargs : dict pyval)
    (title_id library_key query : str) (title_ids library_keys : list str)
    (website_ids : option (list WebsiteId))
    (search : LibraryMediaSearchParams) (c : Call.t) (req : Request) :
  In c [media_call self title_id kwargs;
        media_bulk_call self title_ids kwargs;
        libraries_call self website_ids kwargs;
        library_media_call self library_key title_id kwargs;
        media_search_call self library_keys query kwargs;
        library_medias_call self library_key search;
        library_media_availability_call self library_key title_id] ->
  build_call self c = Ok req ->
  get_method req = lit "GET"
  /\ data req = None
  /\ req_headers req = default_headers self
  /\ exists joined encoded,
       urljoin (api_base self) (Call.endpoint c) = Ok joined
       /\ urlencode (sent_query c) true = Ok encoded
       /\ full_url req
          = joined
            ++ (if contains_char 63%N (Call.endpoint c)
                then lit "&" else lit "?")
            ++ encoded.
Proof.
  intros Hc Hbuild.
  assert (Hform : exists endpoint q,
            c = get_call endpoint q /\ nonempty q = true).
  { cbn [In] in Hc.
    destruct Hc as [<-|[<-|[<-|[<-|[<-|[<-|[<-|[]]]]]]]];
      eexists; eexists; (split; [reflexivity|]);
      repeat apply update_nonempty; try reflexivity.
    destruct website_ids as [[|i ids]|]; reflexivity. }
  destruct Hform as (endpoint & q & -> & Hq).
  exact (build_get_call self endpoint q req Hq Hbuild).
Qed.

Lemma lookup_helpers_send_get_requests_witness :
  let self := new_client 0 None (always (Opened blank_response)) in
  let c := library_media_call self (lit "lapl") (lit "1234") [] in
  let req :=
    {| full_url :=
         lit "https://thunder.api.overdrive.com/v2/libraries/lapl/media/1234?x-client-id=dewey&titleIds=1234";
       data := None;
       req_headers := default_headers self;
       get_method := lit "GET" |} in
  build_call (lib := sample_lib) self c = Ok req
  /\ get_method req = lit "GET"
  /\ data req = None
  /\ req_headers req = default_headers self.
Proof.
  cbv zeta.
  assert (Hbuild :
    build_call (lib := sample_lib)
      (new_client 0 None (always (Opened blank_response)))
      (library_media_call
         (new_client 0 None (always (Opened blank_response)))
         (lit "lapl") (lit "1234") [])
    = Ok {| full_url :=
              lit "https://thunder.api.overdrive.com/v2/libraries/lapl/media/1234?x-client-id=dewey&titleIds=1234";
            data := None;
            req_headers :=
              default_headers
                (new_client 0 None (always (Opened blank_response)));
            get_method := lit "GET" |})
    by reflexivity.
  split; [exact Hbuild|].
  destruct (lookup_helpers_send_get_requests (lib := sample_lib)
              (new_client 0 None (always (Opened blank_response)))
              [] (lit "1234") (lit "lapl") (lit "q") [] [] None
              default_search_params _ _
              (or_intror (or_intror (or_intror (or_introl eq_refl))))
              Hbuild) as (Hm & Hd & Hh & _).
  split; [exact Hm|]. split; [exact Hd | exact Hh].
Defined.

(** X14.  [library_media_availability_bulk] sends a POST request whose
    body is the compact JSON of [{"ids": title_ids}] in ASCII, under
    [Content-Type: application/json; charset=UTF-8], next to a query
    that carries the client id; so it does for an empty list of ids. *)
Theorem availability_bulk_posts_json {lib : PyLib}
    (self : OverDriveClient) (library_key : str) (title_ids : list str)
    (req : Request) :
  build_call self
    (library_media_availability_bulk_call self library_key title_ids)
  = Ok req ->
  get_method req = lit "POST"
  /\ Dict.get (lit "Content-Type") (req_headers req)
     = Some (lit "application/json; charset=UTF-8")
  /\ exists text payload,
       json_dumps (PDict [(lit "ids", PList (List.map PStr title_ids))])
       = Ok text
       /\ encode_ascii text = Some payload
       /\ data req = Some payload.
Proof.
  unfold build_call. cbn [library_media_availability_bulk_call Call.endpoint
    Call.query Call.params Call.method Call.headers Call.is_form].
  intros Hbuild.
  pose proof (build_request_method _ _ _ _ _ _ _ _ Hbuild) as Hmethod.
  pose proof (build_request_inv _ _ _ _ _ _ _ _ Hbuild) as Hinv.
  cbv zeta in Hinv. cbn [has_body nonempty] in Hinv.
  destruct Hinv as (payload & Henc & Hdata & Hhdr).
  split; [rewrite Hmethod; cbn; now rewrite upper_of_ascii|].
  split; [rewrite Hhdr; apply dict_get_set_eq|].
  cbn [encode_body] in Henc.
  destruct (json_dumps (PDict [(lit "ids", PList (List.map PStr title_ids))]))
    as [text|]; cbn [res_bind] in Henc; [|discriminate].
  destruct (encode_ascii text) as [bs|] eqn:Ea; cbn in Henc; [|discriminate].
  inversion Henc; subst. eauto.
Qed.

Lemma availability_bulk_posts_json_witness :
  let self := new_client 0 None (always (Opened blank_response)) in
  exists req,
    build_call (lib := json_lib) self
      (library_media_availability_bulk_call self (lit "lapl")
         [lit "12"; lit "34"])
    = Ok req
    /\ get_method req = lit "POST"
    /\ option_map Utf8.decode (data req)
       = Some (Some ([123; 34; 105; 100; 115; 34; 58; 91; 34; 49; 50; 34;
                      44; 34; 51; 52; 34; 93; 125]%N)).
Proof.
  cbv zeta.
  destruct (build_call (lib := json_lib)
              (new_client 0 None (always (Opened blank_response)))
              (library_media_availability_bulk_call
                 (new_client 0 None (always (Opened blank_response)))
                 (lit "lapl") [lit "12"; lit "34"])) as [req|e] eqn:Hbuild;
    [|vm_compute in Hbuild; discriminate].
  exists req. split; [reflexivity|].
  split.
  - exact (proj1 (availability_bulk_posts_json (lib := json_lib) _ _ _ _
                    Hbuild)).
  - vm_compute in Hbuild. inversion Hbuild. reflexivity.
Defined.

(** ** More on the search parameters *)

Ltac skip_other_keys :=
  repeat first [ rewrite get_cond_set by reflexivity
               | rewrite dict_get_set_ne by reflexivity ].

Ltac split_flags p :=
  destruct (show_only_available p); [|destruct (show_only_prelease p)].

(** What [to_dict] holds under each of the keys it sets, the two flags
    apart. *)
Lemma to_dict_lookup (p : LibraryMediaSearchParams) :
  Dict.get (lit "page") (to_dict p) = Some (PInt (Z.max 1 (page p)))
  /\ Dict.get (lit "perPage") (to_dict p) = Some (PInt (Z.max 1 (per_page p)))
  /\ Dict.get (lit "query") (to_dict p)
     = (if truthy (query p) then Some (PStr (strip (query p))) else None)
  /\ Dict.get (lit "title") (to_dict p)
     = (if truthy (title p) then Some (PStr (strip (title p))) else None)
  /\ Dict.get (lit "creator") (to_dict p)
     = (if truthy (creator p) then Some (PStr (strip (creator p))) else None)
  /\ Dict.get (lit "identifier") (to_dict p)
     = (if truthy (identifier p)
        then Some (PStr (strip (identifier p))) else None)
  /\ Dict.get (lit "titleIds") (to_dict p)
     = (if nonempty (title_ids p)
        then Some (PStr (join (lit ",") (title_ids p))) else None)
  /\ Dict.get (lit "mediaTypes") (to_dict p)
     = (if truthy (media_type p) then Some (PStr (media_type p)) else None)
  /\ Dict.get (lit "subject") (to_dict p)
     = (if truthy (subject_id p) then Some (PStr (subject_id p)) else None).
Proof.
  assert (Hor : forall n, Z.max 1 (int_or n 0) = Z.max 1 n).
  { intros n. unfold int_or. destruct (n =? 0) eqn:E; [|reflexivity].
    apply Z.eqb_eq in E. now subst. }
  unfold to_dict. cbn [fold_left fst snd]. rewrite !Hor.
  repeat split.
  - skip_other_keys. split_flags p; skip_other_keys; reflexivity.
  - skip_other_keys. split_flags p; skip_other_keys; reflexivity.
  - skip_other_keys. destruct (truthy (query p));
      [now rewrite dict_get_set_eq|].
    split_flags p; skip_other_keys; reflexivity.
  - skip_other_keys. destruct (truthy (title p));
      [now rewrite dict_get_set_eq|].
    skip_other_keys. split_flags p; skip_other_keys; reflexivity.
  - skip_other_keys. destruct (truthy (creator p));
      [now rewrite dict_get_set_eq|].
    skip_other_keys. split_flags p; skip_other_keys; reflexivity.
  - skip_other_keys. destruct (truthy (identifier p));
      [now rewrite dict_get_set_eq|].
    skip_other_keys. split_flags p; skip_other_keys; reflexivity.
  - skip_other_keys. destruct (nonempty (title_ids p));
      [now rewrite dict_get_set_eq|].
    skip_other_keys. split_flags p; skip_other_keys; reflexivity.
  - skip_other_keys. destruct (truthy (media_type p));
      [now rewrite dict_get_set_eq|].
    skip_other_keys. split_flags p; skip_other_keys; reflexivity.
  - destruct (truthy (subject_id p)); [now rewrite dict_get_set_eq|].
    skip_other_keys. split_flags p; skip_other_keys; reflexivity.
Qed.

Lemma cond_set_wf {V} (c : bool) (k : str) (v : V) (d : dict V) :
  Dict.wf d -> Dict.wf (if c then Dict.set k v d else d).
Proof. intros H. destruct c; [now apply dict_set_wf | exact H]. Qed.

(** The keys [to_dict] emits are pairwise distinct. *)
Lemma to_dict_wf (p : LibraryMediaSearchParams) : Dict.wf (to_dict p).
Proof.
  unfold to_dict. cbn [fold_left fst snd].
  repeat apply cond_set_wf.
  assert (Hbase : forall a b : pyval,
            Dict.wf [(lit "page", a); (lit "perPage", b)]).
  { intros a b. repeat constructor; cbn; intuition discriminate. }
  split_flags p; repeat apply dict_set_wf; repeat apply cond_set_wf;
    apply Hbase.
Qed.

(** X15.  [to_dict] always emits [page] and [perPage], floored at 1: a
    page or page size of 0 or below is sent as 1. *)
Theorem paging_is_floored_at_one (p : LibraryMediaSearchParams) :
  exists n m,
    Dict.get (lit "page") (to_dict p) = Some (PInt n)
    /\ Dict.get (lit "perPage") (to_dict p) = Some (PInt m)
    /\ 1 <= n /\ 1 <= m
    /\ (1 <= page p -> n = page p)
    /\ (1 <= per_page p -> m = per_page p)
    /\ (page p <= 0 -> n = 1)
    /\ (per_page p <= 0 -> m = 1).
Proof.
  destruct (to_dict_lookup p) as (Hpage & Hper & _).
  exists (Z.max 1 (page p)), (Z.max 1 (per_page p)).
  split; [exact Hpage|]. split; [exact Hper|]. lia.
Qed.

(** X16.  Each of [query], [title], [creator] and [identifier] is emitted
    exactly when the field is a non-empty string, and then with its
    surrounding whitespace stripped; a field of whitespace only is
    therefore emitted as the empty string, not left out. *)
Theorem text_filters_are_stripped (p : LibraryMediaSearchParams) :
  Forall
    (fun a : str * (LibraryMediaSearchParams -> str) =>
       Dict.get (fst a) (to_dict p)
       = (if truthy (snd a p) then Some (PStr (strip (snd a p))) else None)
       /\ (snd a p <> [] -> forallb isspace (snd a p) = true ->
           Dict.get (fst a) (to_dict p) = Some (PStr [])))
    [(lit "query", query); (lit "title", title);
     (lit "creator", creator); (lit "identifier", identifier)].
Proof.
  destruct (to_dict_lookup p) as (_ & _ & Hq & Ht & Hc & Hi & _).
  assert (Hblank : forall (k : str) (s : str),
            Dict.get k (to_dict p)
            = (if truthy s then Some (PStr (strip s)) else None) ->
            s <> [] -> forallb isspace s = true ->
            Dict.get k (to_dict p) = Some (PStr [])).
  { intros k s Hk Hne Hsp. rewrite Hk.
    apply strip_nil_iff in Hsp. rewrite Hsp.
    destruct s; [congruence | reflexivity]. }
  repeat (constructor;
          [cbn [fst snd]; split;
           [assumption | intros; eapply Hblank; eassumption]|]).
  constructor.
Qed.

(** X17.  Parameters that [is_empty] calls empty emit no filter: no
    [showOnlyAvailable], [showOnlyPrerelease], [titleIds], [mediaTypes]
    or [subject], and each of the four text keys is absent or holds the
    empty string. *)
Theorem empty_params_emit_no_filter (p : LibraryMediaSearchParams) :
  is_empty p = true ->
  Forall (fun k => Dict.get k (to_dict p) = None)
    [lit "showOnlyAvailable"; lit "showOnlyPrerelease"; lit "titleIds";
     lit "mediaTypes"; lit "subject"]
  /\ Forall (fun k => Dict.get k (to_dict p) = None
                      \/ Dict.get k (to_dict p) = Some (PStr []))
       [lit "query"; lit "title"; lit "creator"; lit "identifier"].
Proof.
  unfold is_empty. rewrite negb_true_iff. intros H.
  repeat match type of H with
         | _ || _ = false => apply orb_false_elim in H; destruct H as [H ?E]
         end.
  destruct (to_dict_lookup p)
    as (_ & _ & Hq & Ht & Hc & Hi & Hids & Hmedia & Hsubj).
  assert (Hflags :
    Dict.get (lit "showOnlyAvailable") (to_dict p) = None
    /\ Dict.get (lit "showOnlyPrerelease") (to_dict p) = None).
  { unfold to_dict. cbn [fold_left fst snd]. rewrite E3, E2.
    split; skip_other_keys; reflexivity. }
  assert (Htext : forall (k s : str),
            Dict.get k (to_dict p)
            = (if truthy s then Some (PStr (strip s)) else None) ->
            truthy (strip s) = false ->
            Dict.get k (to_dict p) = None
            \/ Dict.get k (to_dict p) = Some (PStr [])).
  { intros k s Hk Hs. rewrite Hk. destruct (truthy s); [|now left].
    right. destruct (strip s); [reflexivity | discriminate]. }
  split.
  - rewrite E in Hsubj. rewrite E0 in Hmedia. rewrite E1 in Hids.
    destruct Hflags. repeat constructor; assumption.
  - constructor; [exact (Htext _ _ Hq H)|].
    constructor; [exact (Htext _ _ Ht E6)|].
    constructor; [exact (Htext _ _ Hc E5)|].
    constructor; [exact (Htext _ _ Hi E4)|].
    constructor.
Qed.

Lemma empty_params_emit_no_filter_witness :
  let p :=
    {| query := lit "  "; title := []; creator := []; identifier := [];
       formats := [lit "ebook-epub"]; per_page := 20; page := 1;
       sort_by := SearchSortBy.RELEVANCE;
       show_only_available := false; show_only_prelease := false;
       media_type := []; subject_id := []; title_ids := [] |} in
  is_empty p = true
  /\ Dict.get (lit "query") (to_dict p) = Some (PStr [])
  /\ Dict.get (lit "subject") (to_dict p) = None.
Proof.
  cbv zeta. split; [reflexivity|].
  match goal with
  | |- context [to_dict ?p] =>
    pose proof (empty_params_emit_no_filter p eq_refl) as H
  end.
  split; reflexivity.
Defined.

(** X18.  [library_medias] sends the search parameters on top of the
    defaults: every key of [to_dict] is sent with its value, and
    [x-client-id] is sent as the client id, which the search parameters
    cannot override. *)
Theorem library_medias_sends_search_parameters (self : OverDriveClient)
    (library_key : str) (search : LibraryMediaSearchParams) :
  let sent := sent_query (library_medias_call self library_key search) in
  (forall k v, Dict.get k (to_dict search) = Some v ->
               Dict.get k sent = Some v)
  /\ Dict.get (lit "x-client-id") sent = Some (PStr CLIENT_ID)
  /\ (forall k, Dict.get k (to_dict search) = None ->
                k <> lit "x-client-id" -> Dict.get k sent = None).
Proof.
  cbv zeta. cbn [sent_query library_medias_call get_call Call.query].
  split; [|split].
  - intros k v Hk. now rewrite dict_get_update, Hk by apply to_dict_wf.
  - rewrite dict_get_update_absent; [reflexivity|].
    now apply to_dict_other_key.
  - intros k Hk Hne. rewrite dict_get_update_absent by exact Hk.
    change (Dict.get k [(lit "x-client-id", PStr CLIENT_ID)] = None).
    cbn [Dict.get]. apply str_eqb_neq in Hne. now rewrite Hne.
Qed.

(** ** More on the identifier extractors *)

Lemma first_return_some {A B} (body : A -> option B) (l : list A) (r : B) :
  first_return body l = Some r -> exists x, In x l /\ body x = Some r.
Proof.
  induction l as [|x l IH]; cbn; [discriminate|].
  destruct (body x) as [r0|] eqn:E.
  - intros H. inversion H; subst. exists x. auto.
  - intros H. destruct (IH H) as (y & Hy & Hb). exists y. auto.
Qed.

Lemma first_return_none {A B} (body : A -> option B) (l : list A) :
  first_return body l = None -> forall x, In x l -> body x = None.
Proof.
  induction l as [|x l IH]; cbn; [contradiction|].
  destruct (body x) as [r0|] eqn:E; [discriminate|].
  intros H y [<-|Hy]; [exact E | now apply IH].
Qed.

(** The first identifier of a type, when its value is not empty, is an
    identifier of the format. *)
Lemma first_identifier_value (isbn_type : str) (f : MediaFormat.t) (r : str) :
  first_or (List.map MediaFormat.value (identifiers_of_type isbn_type f)) []
  = r ->
  r <> [] ->
  exists i, In i (MediaFormat.identifiers f)
            /\ MediaFormat.type i = isbn_type /\ MediaFormat.value i = r.
Proof.
  unfold identifiers_of_type.
  destruct (filter _ (MediaFormat.identifiers f)) as [|i l] eqn:E; cbn.
  - congruence.
  - intros <- _.
    assert (Hi : In i (filter (fun i => PyStr.eqb (MediaFormat.type i) isbn_type)
                         (MediaFormat.identifiers f)))
      by (rewrite E; now left).
    apply filter_In in Hi. destruct Hi as [Hin Ht].
    exists i. split; [exact Hin|]. split; [now apply str_eqb_eq | reflexivity].
Qed.

Lemma extract_isbn_among_sound (formats : list MediaFormat.t)
    (format_types : list str) (r : str) :
  extract_isbn_among formats format_types = r ->
  r <> [] ->
  exists f,
    In f formats
    /\ mem (MediaFormat.id f) format_types = true
    /\ (MediaFormat.isbn f = Some r
        \/ exists i,
             In i (MediaFormat.identifiers f)
             /\ MediaFormat.value i = r
             /\ (MediaFormat.type i = lit "LibraryISBN"
                 \/ MediaFormat.type i = lit "ISBN")).
Proof.
  unfold extract_isbn_among.
  destruct (filter (fun f => has_isbn f && mem (MediaFormat.id f) format_types)
              formats) as [|f l] eqn:Edirect; cbn [List.map first_or truthy].
  - destruct (first_return _ _) as [isbn|] eqn:Escan; [|congruence].
    intros <- Hne.
    apply first_return_some in Escan.
    destruct Escan as (isbn_type & Htype & Escan).
    apply first_return_some in Escan.
    destruct Escan as (f & Hf & Hbody).
    apply filter_In in Hf. destruct Hf as [Hin Hok].
    apply andb_prop in Hok. destruct Hok as [Hmem _].
    cbv zeta in Hbody.
    destruct (truthy (first_or _ _)) eqn:Et in Hbody; [|discriminate].
    inversion Hbody as [Hval].
    destruct (first_identifier_value isbn_type f isbn Hval Hne)
      as (i & Hi & Hti & Hvi).
    exists f. split; [exact Hin|]. split; [exact Hmem|]. right.
    exists i. split; [exact Hi|]. split; [congruence|].
    cbn [In] in Htype. destruct Htype as [<-|[<-|[]]]; auto.
  - assert (Hf : In f (filter (fun f => has_isbn f
                                        && mem (MediaFormat.id f) format_types)
                         formats))
      by (rewrite Edirect; now left).
    apply filter_In in Hf. destruct Hf as [Hin Hok].
    apply andb_prop in Hok. destruct Hok as [Hisbn Hmem].
    unfold has_isbn in Hisbn. unfold isbn_of at 1 2.
    destruct (MediaFormat.isbn f) as [s|] eqn:Es; [|discriminate].
    rewrite Hisbn. intros <- _.
    exists f. auto.
Qed.

(** X19.  An ISBN that [extract_isbn] returns comes from a format that
    passes the allow-list: it is that format's [isbn] field, or the value
    of one of its identifiers of type [LibraryISBN] or [ISBN].  Nothing
    is ever taken from a format outside a non-empty allow-list. *)
Theorem isbn_comes_from_an_admitted_format (formats : list MediaFormat.t)
    (format_types : list str) :
  extract_isbn formats format_types <> [] ->
  exists f,
    In f formats
    /\ admitted format_types f = true
    /\ (MediaFormat.isbn f = Some (extract_isbn formats format_types)
        \/ exists i,
             In i (MediaFormat.identifiers f)
             /\ MediaFormat.value i = extract_isbn formats format_types
             /\ (MediaFormat.type i = lit "LibraryISBN"
                 \/ MediaFormat.type i = lit "ISBN")).
Proof.
  intros Hne. unfold extract_isbn in *. cbv zeta in *.
  destruct (extract_isbn_among_sound _ _ _ eq_refl Hne)
    as (f & Hin & Hmem & Hsrc).
  exists f. split; [exact Hin|]. split; [|exact Hsrc].
  unfold admitted. destruct (nonempty format_types); cbn [negb orb] in *;
    [exact Hmem | reflexivity].
Qed.

Lemma isbn_comes_from_an_admitted_format_witness :
  extract_isbn [kindle_format; epub_format] [lit "ebook-epub"] = lit "333"
  /\ lit "333" <> []
  /\ exists f,
       In f [kindle_format; epub_format]
       /\ admitted [lit "ebook-epub"] f = true
       /\ (MediaFormat.isbn f
           = Some (extract_isbn [kindle_format; epub_format]
                     [lit "ebook-epub"])
           \/ exists i,
                In i (MediaFormat.identifiers f)
                /\ MediaFormat.value i
                   = extract_isbn [kindle_format; epub_format]
                       [lit "ebook-epub"]
                /\ (MediaFormat.type i = lit "LibraryISBN"
                    \/ MediaFormat.type i = lit "ISBN")).
Proof.
  assert (Hne : extract_isbn [kindle_format; epub_format] [lit "ebook-epub"]
                <> [])
    by (vm_compute; discriminate).
  split; [reflexivity|]. split; [discriminate|].
  exact (isbn_comes_from_an_admitted_format
           [kindle_format; epub_format] [lit "ebook-epub"] Hne).
Defined.

Lemma filter_none {A} (p : A -> bool) (l : list A) :
  (forall x, In x l -> p x = false) -> filter p l = [].
Proof.
  induction l as [|x l IH]; cbn; intros H; [reflexivity|].
  rewrite (H x) by now left. apply IH. intros y Hy. apply H. now right.
Qed.

(** X20.  The direct [isbn] field wins: when some admitted format has a
    non-empty [isbn] field, [extract_isbn] returns the field of the first
    such format of the list, whatever identifiers the formats carry. *)
Theorem direct_isbn_field_wins (pre post : list MediaFormat.t)
    (f : MediaFormat.t) (format_types : list str) :
  (forall g, In g pre -> has_isbn g && admitted format_types g = false) ->
  has_isbn f = true ->
  admitted format_types f = true ->
  extract_isbn (pre ++ f :: post) format_types = isbn_of f.
Proof.
  intros Hpre Hisbn Hadm.
  assert (Hfilter : forall effective,
    (forall g, In g (pre ++ f :: post) ->
       mem (MediaFormat.id g) effective = admitted format_types g) ->
    filter (fun g => has_isbn g && mem (MediaFormat.id g) effective)
      (pre ++ f :: post)
    = f :: filter (fun g => has_isbn g && mem (MediaFormat.id g) effective)
             post).
  { intros effective Heff. rewrite filter_app. cbn [filter].
    rewrite (Heff f) by apply in_elt.
    rewrite Hisbn, Hadm. cbn [andb].
    rewrite filter_none; [reflexivity|].
    intros g Hg. rewrite (Heff g) by (apply in_or_app; now left).
    now apply Hpre. }
  unfold extract_isbn. cbv zeta. unfold extract_isbn_among.
  rewrite Hfilter.
  - cbn [List.map first_or].
    unfold has_isbn in Hisbn. unfold isbn_of in *.
    destruct (MediaFormat.isbn f); [|discriminate]. now rewrite Hisbn.
  - intros g Hg. unfold admitted.
    destruct (nonempty format_types); cbn [negb orb]; [reflexivity|].
    apply mem_In. now apply in_map.
Qed.

Lemma direct_isbn_field_wins_witness :
  has_isbn kindle_format = true
  /\ admitted [] kindle_format = true
  /\ extract_isbn ([epub_format] ++ kindle_format :: []) [] = lit "111".
Proof.
  split; [reflexivity|]. split; [reflexivity|].
  refine (direct_isbn_field_wins [epub_format] [] kindle_format [] _
            eq_refl eq_refl).
  intros g [<-|[]]. reflexivity.
Defined.

(** X21.  [LibraryISBN] is preferred to [ISBN]: when no admitted format
    has a non-empty [isbn] field and some admitted format has a first
    [LibraryISBN] identifier with a non-empty value, the result is the
    value of a [LibraryISBN] identifier of an admitted format, also when
    formats earlier in the list carry [ISBN] identifiers. *)
Theorem library_isbn_is_preferred (formats : list MediaFormat.t)
    (format_types : list str) (f : MediaFormat.t) :
  (forall g, In g formats -> has_isbn g && admitted format_types g = false) ->
  In f formats ->
  admitted format_types f = true ->
  first_or
    (List.map MediaFormat.value (identifiers_of_type (lit "LibraryISBN") f))
    [] <> [] ->
  extract_isbn formats format_types <> []
  /\ exists g i,
       In g formats
       /\ admitted format_types g = true
       /\ In i (MediaFormat.identifiers g)
       /\ MediaFormat.type i = lit "LibraryISBN"
       /\ MediaFormat.value i = extract_isbn formats format_types.
Proof.
  intros Hnone Hf Hadm Hval.
  unfold extract_isbn. cbv zeta.
  set (effective :=
         if negb (nonempty format_types)
         then List.map MediaFormat.id formats else format_types).
  assert (Heff : forall g, In g formats ->
            mem (MediaFormat.id g) effective = admitted format_types g).
  { intros g Hg. unfold effective, admitted.
    destruct (nonempty format_types); cbn [negb orb]; [reflexivity|].
    apply mem_In. now apply in_map. }
  unfold extract_isbn_among.
  rewrite filter_none
    by (intros g Hg; rewrite (Heff g Hg); now apply Hnone).
  cbn [List.map first_or truthy first_return].
  match goal with
  | |- context [first_return ?body (filter ?p formats)] =>
    destruct (first_return body (filter p formats)) as [r|] eqn:Escan
  end.
  - apply first_return_some in Escan. destruct Escan as (g & Hg & Hbody).
    apply filter_In in Hg. destruct Hg as [Hin Hok].
    apply andb_prop in Hok. destruct Hok as [Hmem _].
    cbv zeta in Hbody.
    destruct (truthy (first_or _ _)) eqn:Et in Hbody; [|discriminate].
    injection Hbody as Hr.
    assert (Hne : r <> []) by (intros ->; rewrite Hr in Et; discriminate).
    destruct (first_identifier_value _ g r Hr Hne) as (i & Hi & Hti & Hvi).
    split; [exact Hne|].
    exists g, i. rewrite <- (Heff g Hin). auto.
  - exfalso.
    assert (Hin : In f (filter
                          (fun g => mem (MediaFormat.id g) effective
                                    && nonempty (identifiers_of_type
                                                   (lit "LibraryISBN") g))
                          formats)).
    { apply filter_In. split; [exact Hf|].
      rewrite (Heff f Hf), Hadm. cbn [andb].
      destruct (identifiers_of_type (lit "LibraryISBN") f);
        [cbn in Hval; congruence | reflexivity]. }
    pose proof (first_return_none _ _ Escan f Hin) as Hbody.
    cbv beta zeta in Hbody.
    match type of Hbody with
    | (if truthy ?x then _ else _) = None =>
      destruct x as [|c s]; [congruence | discriminate Hbody]
    end.
Qed.

Lemma library_isbn_is_preferred_witness :
  In epub_format [isbn_only_format; epub_format]
  /\ admitted [] epub_format = true
  /\ extract_isbn [isbn_only_format; epub_format] [] = lit "333"
  /\ extract_isbn [isbn_only_format; epub_format] [] <> []
  /\ exists g i,
       In g [isbn_only_format; epub_format]
       /\ admitted [] g = true
       /\ In i (MediaFormat.identifiers g)
       /\ MediaFormat.type i = lit "LibraryISBN"
       /\ MediaFormat.value i
          = extract_isbn [isbn_only_format; epub_format] [].
Proof.
  assert (Hin : In epub_format [isbn_only_format; epub_format])
    by (right; left; reflexivity).
  assert (Hnone : forall g, In g [isbn_only_format; epub_format] ->
                            has_isbn g && admitted [] g = false)
    by (intros g [<-|[<-|[]]]; reflexivity).
  assert (Hval : first_or
                   (List.map MediaFormat.value
                      (identifiers_of_type (lit "LibraryISBN") epub_format))
                   [] <> [])
    by (vm_compute; discriminate).
  split; [exact Hin|]. split; [reflexivity|]. split; [reflexivity|].
  exact (library_isbn_is_preferred [isbn_only_format; epub_format] []
           epub_format Hnone Hin eq_refl Hval).
Defined.

(** X22.  [extract_asin] returns the first non-empty value among the
    first [ASIN] identifiers of the formats, in list order, and the empty
    string when there is none; a value it returns is that of an
    identifier of type [ASIN] of one of the formats. *)
Theorem asin_is_first_non_empty_first_asin (formats : list MediaFormat.t) :
  extract_asin formats
  = first_or (filter truthy (List.map first_asin_value formats)) []
  /\ (extract_asin formats <> [] ->
      exists f i,
        In f formats
        /\ In i (MediaFormat.identifiers f)
        /\ MediaFormat.type i = lit "ASIN"
        /\ MediaFormat.value i = extract_asin formats).
Proof.
  assert (Hchar : extract_asin formats
                  = first_or (filter truthy
                                (List.map first_asin_value formats)) []).
  { unfold extract_asin.
    induction formats as [|f l IH]; [reflexivity|].
    cbn [filter List.map].
    destruct (nonempty (identifiers_of_type (lit "ASIN") f)) eqn:En.
    - cbn [first_return]. cbv beta zeta.
      change (first_or
                (List.map MediaFormat.value
                   (identifiers_of_type (lit "ASIN") f)) [])
        with (first_asin_value f).
      destruct (truthy (first_asin_value f)); [reflexivity | exact IH].
    - assert (Hv : first_asin_value f = []).
      { unfold first_asin_value.
        destruct (identifiers_of_type (lit "ASIN") f);
          [reflexivity | discriminate]. }
      rewrite Hv. cbn [truthy]. exact IH. }
  split; [exact Hchar|].
  rewrite Hchar. intros Hne.
  destruct (filter truthy (List.map first_asin_value formats)) as [|v vs] eqn:E;
    [cbn in Hne; congruence|].
  cbn [first_or] in *.
  assert (Hv : In v (filter truthy (List.map first_asin_value formats)))
    by (rewrite E; now left).
  apply filter_In in Hv. destruct Hv as [Hv _].
  apply in_map_iff in Hv. destruct Hv as (f & Hfv & Hf).
  destruct (first_identifier_value (lit "ASIN") f v Hfv Hne)
    as (i & Hi & Ht & Hval).
  exists f, i. auto.
Qed.

Example asin_skips_empty_first_identifier :
  extract_asin
    [{| MediaFormat.id := lit "ebook-kindle"; MediaFormat.isbn := None;
        MediaFormat.identifiers :=
          [{| MediaFormat.type := lit "ASIN"; MediaFormat.value := [] |};
           {| MediaFormat.type := lit "ASIN";
              MediaFormat.value := lit "B00A" |}] |};
     kindle_format]
  = lit "B00X".
Proof. reflexivity. Qed.

(** ** Sorting by a comparator *)

Section SortFacts.

Context {A : Type}.
Variable cmp : A -> A -> Z.

(** A rank [f] the comparator agrees with on the elements that satisfy
    [P]: a lower rank compares lower, and what compares lower has no
    higher rank. *)
Variable f : A -> Z.
Variable P : A -> Prop.
Hypothesis lower_rank_compares_lower :
  forall x y, P x -> P y -> f y < f x -> cmp y x < 0.
Hypothesis compares_lower_no_higher_rank :
  forall x y, P x -> P y -> cmp y x < 0 -> f y <= f x.

Lemma insert_sorted_perm (x : A) (l : list A) :
  Permutation (x :: l) (insert_sorted cmp x l).
Proof.
  induction l as [|y l IH]; cbn; [reflexivity|].
  destruct (cmp y x <? 0); [|reflexivity].
  rewrite perm_swap. now apply perm_skip.
Qed.

Lemma insertion_sort_perm (l : list A) :
  Permutation l (fold_right (insert_sorted cmp) [] l).
Proof.
  induction l as [|x l IH]; cbn; [reflexivity|].
  rewrite <- insert_sorted_perm. now apply perm_skip.
Qed.

(** The sort keeps every element, in either direction. *)
Lemma sorted_by_perm (reverse : bool) (l : list A) :
  Permutation l (sorted_by cmp reverse l).
Proof.
  unfold sorted_by. destruct reverse.
  - rewrite <- Permutation_rev, <- insertion_sort_perm.
    apply Permutation_rev.
  - apply insertion_sort_perm.
Qed.

Lemma insert_sorted_ascending (x : A) (l : list A) :
  P x -> Forall P l ->
  StronglySorted (fun a b => f a <= f b) l ->
  StronglySorted (fun a b => f a <= f b) (insert_sorted cmp x l).
Proof.
  intros Hx HP Hs. induction l as [|y l IH]; cbn.
  - repeat constructor.
  - inversion HP as [|? ? Hy HPl]; subst.
    inversion Hs as [|? ? Hsl Hall]; subst.
    destruct (cmp y x <? 0) eqn:E.
    + apply Z.ltb_lt in E. constructor; [now apply IH|].
      apply Forall_forall. intros z Hz.
      apply (Permutation_in _ (Permutation_sym (insert_sorted_perm x l)))
        in Hz.
      destruct Hz as [<-|Hz].
      * now apply compares_lower_no_higher_rank.
      * rewrite Forall_forall in Hall. now apply Hall.
    + apply Z.ltb_ge in E.
      assert (Hxy : f x <= f y).
      { destruct (Z_lt_le_dec (f y) (f x)) as [Hlt|Hle]; [|exact Hle].
        pose proof (lower_rank_compares_lower x y Hx Hy Hlt). lia. }
      constructor; [exact Hs|].
      constructor; [exact Hxy|].
      rewrite Forall_forall in *. intros z Hz.
      specialize (Hall z Hz). lia.
Qed.

Lemma insertion_sort_forall (l : list A) :
  Forall P l -> Forall P (fold_right (insert_sorted cmp) [] l).
Proof.
  intros H. rewrite Forall_forall in *. intros x Hx. apply H.
  exact (Permutation_in _ (Permutation_sym (insertion_sort_perm l)) Hx).
Qed.

Lemma insertion_sort_ascending (l : list A) :
  Forall P l ->
  StronglySorted (fun a b => f a <= f b)
    (fold_right (insert_sorted cmp) [] l).
Proof.
  induction l as [|x l IH]; cbn; intros H; [constructor|].
  inversion H; subst.
  apply insert_sorted_ascending; auto using insertion_sort_forall.
Qed.

Lemma rev_descending (l : list A) :
  StronglySorted (fun a b => f a <= f b) l ->
  StronglySorted (fun a b => f b <= f a) (rev l).
Proof.
  induction l as [|x l IH]; cbn; intros H; [constructor|].
  inversion H as [|? ? Hs Hall]; subst.
  specialize (IH Hs).
  assert (Happ : forall l1,
            StronglySorted (fun a b => f b <= f a) l1 ->
            Forall (fun a => f x <= f a) l1 ->
            StronglySorted (fun a b => f b <= f a) (l1 ++ [x])).
  { induction l1 as [|a l1 IH1]; cbn; intros Hs1 Hall1.
    - repeat constructor.
    - inversion Hs1; subst. inversion Hall1; subst.
      constructor; [now apply IH1|].
      apply Forall_app. split; [assumption|]. now repeat constructor. }
  apply Happ; [exact IH|].
  rewrite Forall_forall in *. intros a Ha. apply Hall. now apply in_rev.
Qed.

(** A sort by the comparator is ascending in the rank, and a reversed
    sort is descending. *)
Lemma sorted_by_rank (reverse : bool) (l : list A) :
  Forall P l ->
  StronglySorted
    (fun a b => if reverse then f b <= f a else f a <= f b)
    (sorted_by cmp reverse l).
Proof.
  intros H. unfold sorted_by. destruct reverse.
  - apply rev_descending. apply insertion_sort_ascending.
    rewrite Forall_forall in *. intros x Hx. apply H. now apply in_rev.
  - now apply insertion_sort_ascending.
Qed.

End SortFacts.

(** ** The cover picker *)

Lemma covers_sorted_by_width (l : list Cover) :
  Permutation l (sorted_by (by_key width_or_0) true l)
  /\ StronglySorted (fun a b => width_or_0 b <= width_or_0 a)
       (sorted_by (by_key width_or_0) true l).
Proof.
  split; [apply sorted_by_perm|].
  apply (sorted_by_rank (by_key width_or_0) width_or_0 (fun _ => True))
    with (reverse := true).
  - intros x y _ _ H. unfold by_key. lia.
  - intros x y _ _ H. unfold by_key in H. lia.
  - apply Forall_forall. auto.
Qed.

(** X23.  With the default rank [get_best_cover_url] picks a widest
    cover: for a media with at least one cover, the cover it reads has a
    width (0 when it has none) that no cover of the media exceeds; the
    result is that cover's [href], [None] if the cover is an empty dict,
    and a [KeyError] if it is not empty and has no [href]. *)
Theorem best_cover_is_a_widest_cover (media : Media)
    (mapping : dict Cover) :
  covers media = Some mapping ->
  mapping <> [] ->
  exists c,
    In c (List.map snd mapping)
    /\ (forall c', In c' (List.map snd mapping) ->
                   width_or_0 c' <= width_or_0 c)
    /\ get_best_cover_url media 0
       = (if cover_truthy c
          then match href c with
               | Some h => Ok (Some h)
               | None => Raise (LibraryError (lit "KeyError") (lit "'href'"))
               end
          else Ok None).
Proof.
  intros Hcovers Hne. unfold get_best_cover_url. rewrite Hcovers. cbv zeta.
  destruct (covers_sorted_by_width (List.map snd mapping)) as [Hperm Hsorted].
  destruct (sorted_by (by_key width_or_0) true (List.map snd mapping))
    as [|c rest] eqn:E.
  - apply Permutation_sym, Permutation_nil in Hperm.
    destruct mapping; [congruence | discriminate].
  - exists c. split.
    + apply (Permutation_in _ (Permutation_sym Hperm)). now left.
    + split.
      * intros c' Hc'. apply (Permutation_in _ Hperm) in Hc'.
        inversion Hsorted as [|? ? _ Hall]; subst.
        destruct Hc' as [<-|Hc']; [lia|].
        rewrite Forall_forall in Hall. now apply Hall.
      * unfold index. cbn [List.length].
        replace ((0 <=? 0) && (0 <? Z.of_nat (S (List.length rest))))
          with true by (symmetry; apply andb_true_iff; split;
                        [reflexivity | apply Z.ltb_lt; lia]).
        reflexivity.
Qed.

Lemma best_cover_is_a_widest_cover_witness :
  let media :=
    {| covers :=
         Some [(lit "cover150Wide",
                {| width := Some 150; href := Some (lit "small.jpg");
                   has_other_keys := true |});
               (lit "cover510Wide",
                {| width := Some 510; href := Some (lit "large.jpg");
                   has_other_keys := true |});
               (lit "cover300Wide",
                {| width := Some 300; href := Some (lit "medium.jpg");
                   has_other_keys := true |})] |} in
  get_best_cover_url media 0 = Ok (Some (lit "large.jpg"))
  /\ get_best_cover_url media 1 = Ok (Some (lit "medium.jpg"))
  /\ get_best_cover_url media (-1) = Ok (Some (lit "small.jpg"))
  /\ exists c,
       href c = Some (lit "large.jpg")
       /\ forall c',
            In c' (List.map snd (match covers media with
                                 | Some m => m
                                 | None => []
                                 end)) ->
            width_or_0 c' <= width_or_0 c.
Proof.
  cbv zeta.
  split; [reflexivity|]. split; [reflexivity|]. split; [reflexivity|].
  match goal with
  | |- context [covers ?m] =>
    destruct (best_cover_is_a_widest_cover m _ eq_refl ltac:(discriminate))
      as (c & Hin & Hmax & Hres)
  end.
  exists c. split; [|exact Hmax].
  cbn in Hin. destruct Hin as [<-|[<-|[<-|[]]]]; cbn in Hres;
    first [reflexivity | discriminate Hres].
Defined.

(** X24.  [get_best_cover_url] returns [None] for a rank outside the
    covers, counted from either end ([rank >= n] or [rank < -n] for [n]
    covers); so it does for every rank when the media has no cover. *)
Theorem cover_rank_out_of_range_is_none (media : Media)
    (mapping : dict Cover) (rank : Z) :
  covers media = Some mapping ->
  Z.of_nat (List.length mapping) <= rank
  \/ rank < - Z.of_nat (List.length mapping) ->
  get_best_cover_url media rank = Ok None.
Proof.
  intros Hcovers Hrank. unfold get_best_cover_url. rewrite Hcovers.
  cbv zeta.
  destruct (covers_sorted_by_width (List.map snd mapping)) as [Hperm _].
  apply Permutation_length in Hperm. rewrite length_map in Hperm.
  unfold index. rewrite <- Hperm.
  replace ((0 <=? rank) && (rank <? Z.of_nat (List.length mapping)))
    with false
    by (symmetry; apply andb_false_iff;
        destruct Hrank; [right; apply Z.ltb_ge | left; apply Z.leb_gt]; lia).
  replace ((- Z.of_nat (List.length mapping) <=? rank) && (rank <? 0))
    with false
    by (symmetry; apply andb_false_iff;
        destruct Hrank; [right; apply Z.ltb_ge | left; apply Z.leb_gt]; lia).
  reflexivity.
Qed.

Lemma cover_rank_out_of_range_is_none_witness :
  let mapping :=
    [(lit "cover150Wide",
      {| width := Some 150; href := Some (lit "small.jpg");
         has_other_keys := true |})] in
  Z.of_nat (List.length mapping) <= 1
  /\ get_best_cover_url {| covers := Some mapping |} 1 = Ok None
  /\ get_best_cover_url {| covers := Some mapping |} (-2) = Ok None
  /\ get_best_cover_url {| covers := Some mapping |} (-1)
     = Ok (Some (lit "small.jpg")).
Proof.
  cbv zeta.
  assert (Hrank :
    Z.of_nat (List.length
                [(lit "cover150Wide",
                  {| width := Some 150; href := Some (lit "small.jpg");
                     has_other_keys := true |})]) <= 1) by (cbn; lia).
  split; [exact Hrank|].
  split; [|split; reflexivity].
  exact (cover_rank_out_of_range_is_none
           {| covers :=
                Some [(lit "cover150Wide",
                       {| width := Some 150; href := Some (lit "small.jpg");
                          has_other_keys := true |})] |}
           _ 1 eq_refl (or_introl Hrank)).
Defined.

Example cover_without_covers_key :
  get_best_cover_url {| covers := None |} 0 = Raise AttributeError.
Proof. reflexivity. Qed.

(** ** More on the availability comparator *)

Lemma float_lt_irrefl (x : pyfloat) : float_lt x x = false.
Proof.
  destruct x as [p|[|]|]; cbn; try reflexivity.
  now rewrite (proj1 (Qeq_alt p p) (Qeq_refl p)).
Qed.

Lemma float_lt_finite (p q : Q) :
  float_lt (Finite p) (Finite q) = true <-> (p < q)%Q.
Proof.
  cbn. rewrite Qlt_alt. destruct (Qcompare p q); split; congruence.
Qed.

(** On floats other than NaN, "not less than" is transitive. *)
Lemma float_ge_trans (x y z : pyfloat) :
  x <> NaN -> y <> NaN -> z <> NaN ->
  float_lt x y = false -> float_lt y z = false -> float_lt x z = false.
Proof.
  intros Hx Hy Hz H1 H2.
  destruct x as [p|[|]|], y as [q|[|]|], z as [r|[|]|];
    try congruence; try (cbn in *; congruence).
  destruct (float_lt (Finite p) (Finite r)) eqn:E; [|reflexivity].
  apply float_lt_finite in E.
  assert (Hqp : (q <= p)%Q).
  { apply Qnot_lt_le. intros Hlt. apply float_lt_finite in Hlt.
    congruence. }
  assert (Hrq : (r <= q)%Q).
  { apply Qnot_lt_le. intros Hlt. apply float_lt_finite in Hlt.
    congruence. }
  exfalso. apply (Qlt_not_le _ _ E). now apply Qle_trans with q.
Qed.

Lemma negate_not_nan (v : number) :
  float_of v <> NaN -> float_of (negate v) <> NaN.
Proof.
  destruct v as [b|n|[q|s|]]; cbn; congruence.
Qed.

(** The value a row of the table compares, for a record without NaN. *)
Lemma row_value_not_nan (a : dict number) key default
    (fn : option (number -> number)) :
  nan_free a ->
  In (key, default, fn) availability_keys ->
  float_of (match fn with
            | Some g => g (Dict.get_default key default a)
            | None => Dict.get_default key default a
            end) <> NaN.
Proof.
  intros Ha Hrow.
  assert (Hget : forall d, float_of d <> NaN ->
                           float_of (Dict.get_default key d a) <> NaN).
  { intros d Hd. unfold Dict.get_default.
    destruct (Dict.get key a) as [v|] eqn:E; [|exact Hd].
    destruct v as [b|n|[q|s|]]; cbn; try congruence;
      exfalso; exact (Ha key E). }
  cbn [availability_keys In] in Hrow.
  destruct Hrow as [H|[H|[H|[H|[H|[]]]]]]; inversion H; subst;
    try apply negate_not_nan; apply Hget; cbn; congruence.
Qed.

Lemma compare_by_trans rows (a b c : dict number) :
  (forall key default fn, In (key, default, fn) rows ->
     In (key, default, fn) availability_keys) ->
  nan_free a -> nan_free b -> nan_free c ->
  compare_by rows a b <= 0 -> compare_by rows b c <= 0 ->
  compare_by rows a c <= 0.
Proof.
  intros Hrows Ha Hb Hc.
  induction rows as [|[[key default] fn] rows IH]; cbn [compare_by];
    [lia|].
  assert (Hin : In (key, default, fn) availability_keys)
    by (apply Hrows; now left).
  pose proof (row_value_not_nan a key default fn Ha Hin) as Na.
  pose proof (row_value_not_nan b key default fn Hb Hin) as Nb.
  pose proof (row_value_not_nan c key default fn Hc Hin) as Nc.
  specialize (IH (fun k d g H => Hrows k d g (or_intror H))).
  unfold number_gt, number_lt.
  set (va := float_of
               match fn with
               | Some g => g (Dict.get_default key default a)
               | None => Dict.get_default key default a
               end) in *.
  set (vb := float_of
               match fn with
               | Some g => g (Dict.get_default key default b)
               | None => Dict.get_default key default b
               end) in *.
  set (vc := float_of
               match fn with
               | Some g => g (Dict.get_default key default c)
               | None => Dict.get_default key default c
               end) in *.
  destruct (float_lt vb va) eqn:Eba; [lia|].
  destruct (float_lt vc vb) eqn:Ecb; [destruct (float_lt va vb); lia|].
  pose proof (float_ge_trans vc vb va Nc Nb Na Ecb Eba) as Eca.
  rewrite Eca.
  destruct (float_lt va vc) eqn:Eac; [lia|].
  destruct (float_lt va vb) eqn:Eab.
  - pose proof (float_ge_trans va vc vb Na Nc Nb Eac Ecb). congruence.
  - destruct (float_lt vb vc) eqn:Ebc.
    + pose proof (float_ge_trans vb va vc Nb Na Nc Eba Eac). congruence.
    + exact IH.
Qed.

(** X25.  On records without NaN the comparator orders consistently:
    if it does not put [a] after [b] nor [b] after [c], it does not put
    [a] after [c].  (With antisymmetry this makes it a total preorder,
    which is what a sort by it relies on.) *)
Theorem sort_availabilities_transitive (a b c : dict number) :
  nan_free a -> nan_free b -> nan_free c ->
  sort_availabilities a b <= 0 ->
  sort_availabilities b c <= 0 ->
  sort_availabilities a c <= 0.
Proof.
  unfold sort_availabilities. apply compare_by_trans. auto.
Qed.

Lemma values_nan_free (a : dict number) :
  Forall (fun kv : str * number => snd kv <> NFloat NaN) a -> nan_free a.
Proof.
  intros H key. induction a as [|[k v] a IH]; cbn; [discriminate|].
  inversion H; subst.
  destruct (PyStr.eqb key k); [cbn in *; congruence | now apply IH].
Qed.

Lemma sort_availabilities_transitive_witness :
  nan_free available_one_copy
  /\ nan_free (waiting_record 3)
  /\ nan_free (waiting_record 14)
  /\ sort_availabilities (waiting_record 14) (waiting_record 3) <= 0
  /\ sort_availabilities (waiting_record 3) available_one_copy <= 0
  /\ sort_availabilities (waiting_record 14) available_one_copy <= 0.
Proof.
  assert (H1 : nan_free available_one_copy)
    by (apply values_nan_free; repeat constructor; discriminate).
  assert (H2 : nan_free (waiting_record 3))
    by (apply values_nan_free; repeat constructor; discriminate).
  assert (H3 : nan_free (waiting_record 14))
    by (apply values_nan_free; repeat constructor; discriminate).
  assert (H4 : sort_availabilities (waiting_record 14) (waiting_record 3) <= 0)
    by (vm_compute; discriminate).
  assert (H5 : sort_availabilities (waiting_record 3) available_one_copy <= 0)
    by (vm_compute; discriminate).
  split; [exact H1|]. split; [exact H2|]. split; [exact H3|].
  split; [exact H4|]. split; [exact H5|].
  exact (sort_availabilities_transitive _ _ _ H3 H2 H1 H4 H5).
Defined.




Lemma float_lt_int (x y : Z) :
  float_lt (Finite (inject_Z x)) (Finite (inject_Z y)) = (x <? y).
Proof.
  cbn. unfold Qcompare. cbn. rewrite !Z.mul_1_r.
  destruct (Z.compare_spec x y) as [->|H|H]; symmetry.
  - apply Z.ltb_irrefl.
  - now apply Z.ltb_lt.
  - apply Z.ltb_ge. lia.
Qed.

(** X27.  Between two records that agree on [isAvailable] and on
    [luckyDayAvailableCopies] the shorter estimated wait compares
    greater, a missing [estimatedWaitDays] counting as 9999 days: the
    wait is compared in reverse. *)
Theorem shorter_wait_compares_greater (a b : dict number) (x y : Z) :
  Dict.get (lit "isAvailable") a = Dict.get (lit "isAvailable") b ->
  Dict.get (lit "luckyDayAvailableCopies") a
  = Dict.get (lit "luckyDayAvailableCopies") b ->
  Dict.get_default (lit "estimatedWaitDays") (NInt 9999) a = NInt x ->
  Dict.get_default (lit "estimatedWaitDays") (NInt 9999) b = NInt y ->
  x < y ->
  sort_availabilities a b = 1 /\ sort_availabilities b a = -1.
Proof.
  intros Havail Hlucky Ha Hb Hlt.
  assert (Hab : sort_availabilities a b = 1).
  { unfold sort_availabilities, availability_keys. cbn [compare_by].
    unfold Dict.get_default in *. rewrite Havail, Hlucky.
    unfold number_gt, number_lt. rewrite !float_lt_irrefl.
    rewrite Ha, Hb. cbn [negate float_of]. rewrite float_lt_int.
    replace (- y <? - x) with true by (symmetry; apply Z.ltb_lt; lia).
    reflexivity. }
  split; [exact Hab|].
  unfold sort_availabilities in *. rewrite compare_by_antisym, Hab.
  reflexivity.
Qed.

Lemma shorter_wait_compares_greater_witness :
  Dict.get_default (lit "estimatedWaitDays") (NInt 9999) (waiting_record 3)
  = NInt 3
  /\ Dict.get_default (lit "estimatedWaitDays") (NInt 9999)
       unavailable_hundred_copies = NInt 9999
  /\ 3 < 9999
  /\ sort_availabilities (waiting_record 3) unavailable_hundred_copies = 1
  /\ sort_availabilities unavailable_hundred_copies (waiting_record 3) = -1.
Proof.
  split; [reflexivity|]. split; [reflexivity|]. split; [lia|].
  exact (shorter_wait_compares_greater (waiting_record 3)
           unavailable_hundred_copies 3 9999 eq_refl eq_refl eq_refl eq_refl
           ltac:(lia)).
Defined.

(** ** What the helpers put in the query *)

(** X28.  The parameters a helper sets itself are sent unless a keyword
    argument of the same name replaces them: [titleIds] (the ids joined
    by commas in [media_bulk], the title id in [library_media]),
    [libraryKey] and [query] in [media_search], and in [libraries] the
    paging defaults [page=1] and [perPage=24] and, for a non-empty list
    of website ids, [websiteIds] joined by commas (absent otherwise). *)
Theorem helper_parameters_unless_overridden (self : OverDriveClient)
    (kwargs : dict pyval) (title_id library_key query : str)
    (title_ids library_keys : list str)
    (website_ids : option (list WebsiteId)) :
  Dict.wf kwargs ->
  let merged (k : str) (own : option pyval) :=
    match Dict.get k kwargs with
    | Some v => Some v
    | None => own
    end in
  Dict.get (lit "titleIds")
    (sent_query (media_bulk_call self title_ids kwargs))
  = merged (lit "titleIds") (Some (PStr (join (lit ",") title_ids)))
  /\ Dict.get (lit "titleIds")
       (sent_query (library_media_call self library_key title_id kwargs))
     = merged (lit "titleIds") (Some (PStr title_id))
  /\ Dict.get (lit "libraryKey")
       (sent_query (media_search_call self library_keys query kwargs))
     = merged (lit "libraryKey") (Some (PList (List.map PStr library_keys)))
  /\ Dict.get (lit "query")
       (sent_query (media_search_call self library_keys query kwargs))
     = merged (lit "query") (Some (PStr query))
  /\ Dict.get (lit "page")
       (sent_query (libraries_call self website_ids kwargs))
     = merged (lit "page") (Some (PInt 1))
  /\ Dict.get (lit "perPage")
       (sent_query (libraries_call self website_ids kwargs))
     = merged (lit "perPage") (Some (PInt 24))
  /\ Dict.get (lit "websiteIds")
       (sent_query (libraries_call self website_ids kwargs))
     = merged (lit "websiteIds")
         match website_ids with
         | Some ((_ :: _) as ids) =>
           Some (PStr (join (lit ",") (List.map str_of_website_id ids)))
         | _ => None
         end.
Proof.
  intros Hwf merged. unfold merged.
  cbn [sent_query media_bulk_call library_media_call media_search_call
       libraries_call get_call Call.query].
  repeat split; rewrite (dict_get_update _ _ kwargs Hwf);
    destruct (Dict.get _ kwargs); try reflexivity.
  - destruct website_ids as [[|i ids]|]; reflexivity.
  - destruct website_ids as [[|i ids]|]; reflexivity.
  - destruct website_ids as [[|i ids]|]; reflexivity.
Qed.

Lemma helper_parameters_unless_overridden_witness :
  let self := new_client 0 None (always (Opened blank_response)) in
  Dict.wf sample_kwargs
  /\ Dict.get (lit "titleIds")
       (sent_query (media_bulk_call self [lit "1"; lit "2"] sample_kwargs))
     = Some (PStr (lit "999"))
  /\ Dict.get (lit "page")
       (sent_query (libraries_call self (Some [IdInt 42]) sample_kwargs))
     = Some (PInt 1)
  /\ Dict.get (lit "websiteIds")
       (sent_query (libraries_call self (Some [IdInt 42]) sample_kwargs))
     = Some (PStr (lit "42")).
Proof.
  cbv zeta.
  destruct (helper_parameters_unless_overridden
              (new_client 0 None (always (Opened blank_response)))
              sample_kwargs (lit "1") (lit "lapl") (lit "q")
              [lit "1"; lit "2"] [lit "lapl"] (Some [IdInt 42])
              sample_kwargs_wf)
    as (Hbulk & _ & _ & _ & Hpage & _ & Hsites).
  split; [exact sample_kwargs_wf|].
  split; [exact Hbulk|]. split; [exact Hpage | exact Hsites].
Defined.
